(** * easeprobe: the Discord notifier (notify/discord/discord.go)

    A shallow embedding of the Discord notification adapter of easeprobe and
    of the parts of the Go runtime it calls (time, fmt, encoding/json,
    reflect's struct tags, net/http), followed by the properties of the
    notifier stated in the specification. *)

From Stdlib Require Import ZArith List String Ascii Bool Lia.
Import ListNotations.

Set Warnings "-register-all".

Local Open Scope string_scope.
Local Open Scope Z_scope.

(** ** Go basics: machine integers, results, byte strings *)

(** A Go value of type [(T, error)]. *)
Inductive result (A E : Type) : Type :=
| Ok (a : A)
| Err (e : E).
Arguments Ok {A E} a.
Arguments Err {A E} e.

(** The [error] interface: all that a caller can observe is [Error()]. *)
Record error : Type := errors_New { Error : string }.

(** Conversion of an integer to the two fixed-width types the code uses. *)
Definition int64 (z : Z) : Z := (z + 2 ^ 63) mod 2 ^ 64 - 2 ^ 63.
Definition uint64 (z : Z) : Z := z mod 2 ^ 64.

Definition minInt64 : Z := - 2 ^ 63.
Definition maxInt64 : Z := 2 ^ 63 - 1.

(** [byte(n) + '0']. *)
Definition digitChar (n : Z) : ascii := ascii_of_N (Z.to_N (48 + n)).
Definition isDigit (c : ascii) : bool :=
  let n := Z.of_N (N_of_ascii c) in (48 <=? n) && (n <=? 57).
Definition digitVal (c : ascii) : Z := Z.of_N (N_of_ascii c) - 48.

Definition nl : string := String "010"%char EmptyString.
Definition tab : string := String "009"%char EmptyString.
Definition dquote : string := String "034"%char EmptyString.

(** Decimal digits of a non-negative number, written in front of [acc];
    the number of decimal digits never exceeds the number of binary ones,
    which bounds the loop. *)
Fixpoint fmtDigits (fuel : nat) (v : Z) (acc : string) : string :=
  let acc' := String (digitChar (v mod 10)) acc in
  match fuel with
  | O => acc'
  | S f => if v / 10 =? 0 then acc' else fmtDigits f (v / 10) acc'
  end.

Definition fmtInt (v : Z) (acc : string) : string :=
  fmtDigits (Z.to_nat (Z.log2 v)) v acc.

(** [strconv.Itoa] / the verb [%d]. *)
Definition itoa (z : Z) : string :=
  if z <? 0 then String "-" (fmtInt (- z) "") else fmtInt z "".

Definition join (sep : string) (l : list string) : string :=
  match l with
  | [] => ""
  | x :: r => x ++ fold_right (fun y acc => sep ++ y ++ acc) "" r
  end.

(** ** Package time *)

Module time.

(** [type Duration int64], a count of nanoseconds. *)
Definition Duration : Type := Z.

Definition Nanosecond : Duration := 1.
Definition Microsecond : Duration := 1000 * Nanosecond.
Definition Millisecond : Duration := 1000 * Microsecond.
Definition Second : Duration := 1000 * Millisecond.
Definition Minute : Duration := 60 * Second.
Definition Hour : Duration := 60 * Minute.

Definition minDuration : Duration := minInt64.
Definition maxDuration : Duration := maxInt64.

(** [lessThanHalf] reports whether [x+x < y], computed on [uint64]. *)
Definition lessThanHalf (x y : Duration) : bool :=
  uint64 (uint64 x + uint64 x) <? uint64 y.

(** [func (d Duration) Round(m Duration) Duration]: Go's [%] truncates
    toward zero ([Z.rem]); sums are taken in [int64]. *)
Definition Duration_Round (d m : Duration) : Duration :=
  if m <=? 0 then d
  else
    let r := Z.rem d m in
    if d <? 0 then
      let r := int64 (- r) in
      if lessThanHalf r m then int64 (d + r)
      else
        let d1 := int64 (int64 (d - m) + r) in
        if d1 <? d then d1 else minDuration
    else
      if lessThanHalf r m then int64 (d - r)
      else
        let d1 := int64 (int64 (d + m) - r) in
        if d <? d1 then d1 else maxDuration.

(** [fmtFrac] writes the fraction of [v/10^prec] in front of [acc], without
    trailing zeros, and returns [v/10^prec]. *)
Fixpoint fmtFrac (prec : nat) (v : Z) (print : bool) (acc : string) : string * Z :=
  match prec with
  | O => (if print then String "." acc else acc, v)
  | S p =>
      let digit := v mod 10 in
      let print' := print || negb (digit =? 0) in
      fmtFrac p (v / 10) print' (if print' then String (digitChar digit) acc else acc)
  end.

(** [func (d Duration) String() string]: "72h3m0.5s", "1.5ms", "0s". *)
Definition Duration_String (d : Duration) : string :=
  let neg := d <? 0 in
  let u := if neg then uint64 (- uint64 d) else uint64 d in
  let body :=
    if u <? Second then
      if u =? 0 then "0s"
      else if u <? Microsecond then
        let '(b, u') := fmtFrac 0 u false "ns" in fmtInt u' b
      else if u <? Millisecond then
        let '(b, u') := fmtFrac 3 u false "µs" in fmtInt u' b
      else
        let '(b, u') := fmtFrac 6 u false "ms" in fmtInt u' b
    else
      let '(b, u1) := fmtFrac 9 u false "s" in
      let b := fmtInt (u1 mod 60) b in
      let u2 := u1 / 60 in
      if 0 <? u2 then
        let b := fmtInt (u2 mod 60) (String "m" b) in
        let u3 := u2 / 60 in
        if 0 <? u3 then fmtInt u3 (String "h" b) else b
      else b in
  if neg then String "-" body else body.

(** *** Instants and the civil calendar *)

(** A [*Location]: its name and the offset east of UTC, in seconds, that is
    in force at a given Unix time. *)
Record Location : Type := { Location_name : string; Location_lookup : Z -> Z }.

Definition UTC : Location := {| Location_name := "UTC"; Location_lookup := fun _ => 0 |}.
Definition FixedZone (name : string) (offset : Z) : Location :=
  {| Location_name := name; Location_lookup := fun _ => offset |}.

(** A [Time]: an instant, as seconds since the Unix epoch and nanoseconds
    within the second (0 <= nsec < 1e9), seen from a location. *)
Record Time : Type := { unixSec : Z; nsec : Z; loc : Location }.

(** [t.Equal(u)]: the same instant, whatever the locations. *)
Definition Time_Equal (t u : Time) : bool :=
  (unixSec t =? unixSec u) && (nsec t =? nsec u).

(** [t.UTC()]: the same instant with the location set to UTC. *)
Definition Time_UTC (t : Time) : Time :=
  {| unixSec := unixSec t; nsec := nsec t; loc := UTC |}.

Definition secondsPerMinute : Z := 60.
Definition secondsPerHour : Z := 60 * secondsPerMinute.
Definition secondsPerDay : Z := 24 * secondsPerHour.
Definition daysPer400Years : Z := 365 * 400 + 97.
Definition daysPer100Years : Z := 365 * 100 + 24.
Definition daysPer4Years : Z := 365 * 4 + 1.

(** The zero year of the absolute time scale; 1 mod 400. *)
Definition absoluteZeroYear : Z := -292277022399.
Definition unixToInternal : Z := (1969 * 365 + 1969 / 4 - 1969 / 100 + 1969 / 400) * secondsPerDay.
Definition internalToUnix : Z := - unixToInternal.
Definition absoluteToInternal : Z := -9223371966579724800.
Definition internalToAbsolute : Z := - absoluteToInternal.

(** [t.abs()]: seconds since the absolute zero year, in the location's
    wall clock, as a [uint64]. *)
Definition Time_abs (t : Time) : Z :=
  let sec := int64 (unixSec t + Location_lookup (loc t) (unixSec t)) in
  uint64 (int64 (sec + (unixToInternal + internalToAbsolute))).

Definition isLeap (year : Z) : bool :=
  (Z.rem year 4 =? 0) && (negb (Z.rem year 100 =? 0) || (Z.rem year 400 =? 0)).

(** [daysBefore[m]]: days in a non-leap year before month [m+1]. *)
Definition daysBefore (m : Z) : Z :=
  nth (Z.to_nat m) [0; 31; 59; 90; 120; 151; 181; 212; 243; 273; 304; 334; 365] 0.

Definition January : Z := 1.
Definition February : Z := 2.
Definition March : Z := 3.

(** [absDate(abs, true)]: year, month, day of the month and day of the year
    (from 0) of an absolute time. *)
Definition absDate (abs : Z) : Z * Z * Z * Z :=
  let d := abs / secondsPerDay in
  (* 400-year cycles *)
  let n := d / daysPer400Years in
  let y := 400 * n in
  let d := d - daysPer400Years * n in
  (* 100-year cycles; the last cycle has an extra leap year *)
  let n := d / daysPer100Years in
  let n := n - Z.shiftr n 2 in
  let y := y + 100 * n in
  let d := d - daysPer100Years * n in
  (* 4-year cycles *)
  let n := d / daysPer4Years in
  let y := y + 4 * n in
  let d := d - daysPer4Years * n in
  (* years within a 4-year cycle *)
  let n := d / 365 in
  let n := n - Z.shiftr n 2 in
  let y := y + n in
  let d := d - 365 * n in
  let year := int64 (int64 y + absoluteZeroYear) in
  let yday := d in
  let rest (day : Z) :=
    let month := day / 31 in
    let end_ := daysBefore (month + 1) in
    let '(month, begin) :=
      if end_ <=? day then (month + 1, end_) else (month, daysBefore month) in
    (year, month + 1, day - begin + 1, yday) in
  if isLeap year then
    if 31 + 29 - 1 <? yday then rest (yday - 1)
    else if yday =? 31 + 29 - 1 then (year, February, 29, yday)
    else rest yday
  else rest yday.

(** [absClock(abs)]: hour, minute and second within the day. *)
Definition absClock (abs : Z) : Z * Z * Z :=
  let sec := abs mod secondsPerDay in
  let hour := sec / secondsPerHour in
  let sec := sec - hour * secondsPerHour in
  let min := sec / secondsPerMinute in
  let sec := sec - min * secondsPerMinute in
  (hour, min, sec).

(** [norm(hi, lo, base)]: carries [lo] into [hi] until 0 <= lo < base. *)
Definition norm (hi lo base : Z) : Z * Z :=
  let '(hi, lo) :=
    if lo <? 0 then
      let n := Z.quot (- lo - 1) base + 1 in (hi - n, lo + n * base)
    else (hi, lo) in
  if base <=? lo then
    let n := Z.quot lo base in (hi + n, lo - n * base)
  else (hi, lo).

Definition daysSinceEpoch (year : Z) : Z :=
  let y := uint64 (year - absoluteZeroYear) in
  let n := y / 400 in
  let y := y - 400 * n in
  let d := daysPer400Years * n in
  let n := y / 100 in
  let y := y - 100 * n in
  let d := d + daysPer100Years * n in
  let n := y / 4 in
  let y := y - 4 * n in
  let d := d + daysPer4Years * n in
  let n := y in
  d + 365 * n.

(** [Date(year, month, day, hour, min, sec, nsec, UTC)]: the only location
    the parser below passes is UTC, whose offset is 0. *)
Definition Date_UTC (year month day hour min sec nsec : Z) : Time :=
  let '(year, m) := norm year (month - 1) 12 in
  let month := m + 1 in
  let '(sec, nsec) := norm sec nsec 1000000000 in
  let '(min, sec) := norm min sec 60 in
  let '(hour, min) := norm hour min 60 in
  let '(day, hour) := norm day hour 24 in
  let d := daysSinceEpoch year in
  let d := d + daysBefore (month - 1) in
  let d := if isLeap year && (March <=? month) then d + 1 else d in
  let d := d + (day - 1) in
  let abs := uint64 (d * secondsPerDay) in
  let abs := uint64 (abs + (hour * secondsPerHour + min * secondsPerMinute + sec)) in
  let unix := int64 (int64 abs + (absoluteToInternal + internalToUnix)) in
  {| unixSec := unix; nsec := nsec; loc := UTC |}.

(** [daysIn(m, year)]. *)
Definition daysIn (m year : Z) : Z :=
  if (m =? February) && isLeap year then 29
  else daysBefore m - daysBefore (m - 1).

(** *** Formatting and parsing RFC 3339 *)

Definition RFC3339 : string := "2006-01-02T15:04:05Z07:00".

Fixpoint zeros (n : nat) (acc : string) : string :=
  match n with
  | O => acc
  | S k => String "0" (zeros k acc)
  end.

(** [appendInt(b, x, width)]: decimal, zero-padded to [width], after a
    minus sign when negative. *)
Definition appendInt (x : Z) (width : nat) : string :=
  let u := if x <? 0 then uint64 (- x) else uint64 x in
  let digits := fmtInt u "" in
  let body := zeros (width - String.length digits) digits in
  if x <? 0 then String "-" body else body.

(** [t.Format(time.RFC3339)]: the layout's fields are the year on four
    digits, month, day, hour, minute and second on two, and the zone as
    [Z] when the offset is zero, as [+hh:mm] or [-hh:mm] otherwise. *)
Definition Time_Format_RFC3339 (t : Time) : string :=
  let abs := Time_abs t in
  let offset := Location_lookup (loc t) (unixSec t) in
  let '(year, month, day, _) := absDate abs in
  let '(hour, min, sec) := absClock abs in
  let zone :=
    if offset =? 0 then "Z"
    else
      let zone := Z.quot offset 60 in
      let sign := if zone <? 0 then "-" else "+" in
      let zone := Z.abs zone in
      sign ++ appendInt (Z.quot zone 60) 2 ++ ":" ++ appendInt (Z.rem zone 60) 2 in
  appendInt year 4 ++ "-" ++ appendInt month 2 ++ "-" ++ appendInt day 2 ++ "T"
    ++ appendInt hour 2 ++ ":" ++ appendInt min 2 ++ ":" ++ appendInt sec 2 ++ zone.

(** The parser's [parseUint]: every byte a digit and the value within
    [min..max]. *)
Fixpoint atoiDigits (s : string) (x : Z) : option Z :=
  match s with
  | EmptyString => Some x
  | String c r => if isDigit c then atoiDigits r (x * 10 + digitVal c) else None
  end.

Definition parseUint (s : string) (min max : Z) : option Z :=
  match atoiDigits s 0 with
  | Some x => if (x <? min) || (max <? x) then None else Some x
  | None => None
  end.

(** The slice [s[i:j]] and the byte [s[i]]. *)
Definition slice (s : string) (i j : nat) : string := substring i (j - i) s.
Definition byteAt (s : string) (i : nat) (c : ascii) : bool :=
  match get i s with
  | Some c' => Ascii.eqb c c'
  | None => false
  end.

(** Length of the run of digits [s] starts with. *)
Fixpoint digitRun (s : string) : nat :=
  match s with
  | String c r => if isDigit c then S (digitRun r) else O
  | EmptyString => O
  end.

(** [parseNanoseconds(s, n)] for [s] = "." followed by [n-1] digits: the
    first nine digits, scaled to nanoseconds. *)
Definition parseNanoseconds (s : string) (n : nat) : Z :=
  let n := Nat.min n 10 in
  match atoiDigits (slice s 1 n) 0 with
  | Some ns => ns * 10 ^ Z.of_nat (10 - n)
  | None => 0
  end.

(** [parseRFC3339(s, local)], the parser of RFC 3339 texts: [time.Parse]
    tries it first for the layout RFC3339 and returns what it accepts (for
    a text it rejects, [time.Parse] goes on to its layout-driven parser,
    which is outside the model). *)
Definition parseRFC3339 (s : string) (local : Location) : option Time :=
  if (String.length s <? 19)%nat then None
  else
    match parseUint (slice s 0 4) 0 9999, parseUint (slice s 5 7) 1 12 with
    | Some year, Some month =>
        match parseUint (slice s 8 10) 1 (daysIn month year),
              parseUint (slice s 11 13) 0 23,
              parseUint (slice s 14 16) 0 59,
              parseUint (slice s 17 19) 0 59 with
        | Some day, Some hour, Some min, Some sec =>
            if negb (byteAt s 4 "-" && byteAt s 7 "-" && byteAt s 10 "T"
                     && byteAt s 13 ":" && byteAt s 16 ":") then None
            else
              let s := slice s 19 (String.length s) in
              let '(nsec, s) :=
                if (2 <=? String.length s)%nat && byteAt s 0 "." && (1 <=? digitRun (slice s 1 (String.length s)))%nat
                then
                  let n := S (digitRun (slice s 1 (String.length s))) in
                  (parseNanoseconds s n, slice s n (String.length s))
                else (0, s) in
              let t := Date_UTC year month day hour min sec nsec in
              if (String.length s =? 1)%nat && byteAt s 0 "Z" then Some t
              else if negb (String.length s =? 6)%nat then None
              else
                match parseUint (slice s 1 3) 0 23, parseUint (slice s 4 6) 0 59 with
                | Some hr, Some mm =>
                    if negb ((byteAt s 0 "-" || byteAt s 0 "+") && byteAt s 3 ":") then None
                    else
                      let zoneOffset := (hr * 60 + mm) * 60 in
                      let zoneOffset := if byteAt s 0 "-" then - zoneOffset else zoneOffset in
                      let unix := int64 (unixSec t - zoneOffset) in
                      let l :=
                        if Location_lookup local unix =? zoneOffset then local
                        else FixedZone "" zoneOffset in
                      Some {| unixSec := unix; nsec := time.nsec t; loc := l |}
                | _, _ => None
                end
        | _, _, _, _ => None
        end
    | _, _ => None
    end.

End time.

(** ** Package fmt *)

(** A [float64], as its IEEE 754 bits; the model never computes with one,
    it only hands it to [strconv.FormatFloat]. *)
Record float64 : Type := { float64_bits : Z }.

Module fmt.

(** An operand of a formatting call, by the kind [fmt] dispatches on.
    [AStringer] is a value whose type has a [String()] or [Error()] method,
    given with the method's result and, where the model has it, the plain
    value that the verbs ignoring the method print. *)
Inductive Arg : Type :=
| AString (s : string)
| ABool (b : bool)
| AInt (ty : string) (z : Z)
| AFloat64 (f : float64)
| AStringer (ty : string) (str : string) (under : option Arg)
| AStruct (ty : string) (fields : list Arg)
| ASlice (ty : string) (elems : list Arg).

Definition typeName (a : Arg) : string :=
  match a with
  | AString _ => "string"
  | ABool _ => "bool"
  | AInt ty _ => ty
  | AFloat64 _ => "float64"
  | AStringer ty _ _ => ty
  | AStruct ty _ => ty
  | ASlice ty _ => ty
  end.

Definition isVerb (c : ascii) (verbs : list ascii) : bool :=
  existsb (Ascii.eqb c) verbs.

(** What [fmt] prints for a verb the operand's type does not support. *)
Definition badVerb (verb : ascii) (ty value : string) : string :=
  "%!" ++ String verb ("(" ++ ty ++ "=" ++ value ++ ")").

Definition boolString (b : bool) : string := if b then "true" else "false".

Section Printing.

(** [strconv.FormatFloat(f, fmt, prec, 64)]. *)
Variable FormatFloat : float64 -> ascii -> Z -> string.

(** One operand under one verb. The verbs modelled are [s], [v], [d] and
    [f] (the latter with an optional precision), without flags or width;
    these are the verbs of the notifier's format strings. *)
Fixpoint fmtArg (verb : ascii) (prec : option Z) (a : Arg) {struct a} : string :=
  match a with
  | AString s =>
      if isVerb verb ["s"; "v"]%char then s else badVerb verb "string" s
  | ABool b =>
      if isVerb verb ["t"; "v"]%char then boolString b
      else badVerb verb "bool" (boolString b)
  | AInt ty z =>
      if isVerb verb ["d"; "v"]%char then itoa z else badVerb verb ty (itoa z)
  | AFloat64 f =>
      if isVerb verb ["v"]%char then FormatFloat f "g" (-1)
      else if isVerb verb ["f"]%char then
        FormatFloat f "f" (match prec with Some p => p | None => 6 end)
      else badVerb verb "float64" (FormatFloat f "g" (-1))
  | AStringer ty str under =>
      if isVerb verb ["s"; "v"]%char then str
      else
        match under with
        | Some u => fmtArg verb prec u
        | None => badVerb verb ty str
        end
  | AStruct _ fields => "{" ++ join " " (map (fmtArg verb prec) fields) ++ "}"
  | ASlice _ elems => "[" ++ join " " (map (fmtArg verb prec) elems) ++ "]"
  end.

(** Operands left over when the format is exhausted. *)
Definition extra (args : list Arg) : string :=
  match args with
  | [] => ""
  | _ =>
      "%!(EXTRA "
        ++ join ", " (map (fun a => typeName a ++ "=" ++ fmtArg "v" None a) args)
        ++ ")"
  end.

(** The scanner's state: in literal text, or after a [%] with the precision
    read so far. *)
Inductive Mode : Type :=
| Lit
| Pct (prec : option Z) (inPrec : bool).

Fixpoint doPrintf (mode : Mode) (format : string) (args : list Arg) : string :=
  match format with
  | EmptyString =>
      match mode with
      | Lit => extra args
      | Pct _ _ => "%!(NOVERB)" ++ extra args
      end
  | String c rest =>
      match mode with
      | Lit =>
          if Ascii.eqb c "%" then doPrintf (Pct None false) rest args
          else String c (doPrintf Lit rest args)
      | Pct prec inPrec =>
          if Ascii.eqb c "." && negb inPrec then doPrintf (Pct (Some 0) true) rest args
          else if inPrec && isDigit c then
            doPrintf (Pct (option_map (fun p => p * 10 + digitVal c) prec) true) rest args
          else if Ascii.eqb c "%" then String "%" (doPrintf Lit rest args)
          else
            match args with
            | [] => "%!" ++ String c ("(MISSING)" ++ doPrintf Lit rest [])
            | a :: args' => fmtArg c prec a ++ doPrintf Lit rest args'
            end
      end
  end.

(** [fmt.Sprintf(format, args...)]. *)
Definition Sprintf (format : string) (args : list Arg) : string :=
  doPrintf Lit format args.

(** [fmt.Sprintln(args...)] without its final newline. *)
Definition sprintlnn (args : list Arg) : string :=
  join " " (map (fmtArg "v" None) args).

End Printing.

End fmt.

(** ** Struct tags (package reflect) and package encoding/json *)

Module json.

Definition ltb_ascii (a b : ascii) : bool := (N_of_ascii a <? N_of_ascii b)%N.

(** Drops the leading spaces of a tag. *)
Fixpoint skipSpaces (tag : string) : string :=
  match tag with
  | String " " r => skipSpaces r
  | _ => tag
  end.

(** Length of the key a tag starts with: bytes above the space other than
    the colon, the quote and DEL. *)
Fixpoint scanKey (tag : string) : nat :=
  match tag with
  | String c r =>
      if ltb_ascii " " c && negb (Ascii.eqb c ":") && negb (Ascii.eqb c "034")
         && negb (Ascii.eqb c "127")
      then S (scanKey r) else O
  | EmptyString => O
  end.

(** Index of the quote that closes a quoted string, counted from the byte
    after the opening quote; a backslash skips the next byte. [None] when
    the string ends first. *)
Fixpoint scanQuoted (s : string) (skip : bool) : option nat :=
  match s with
  | EmptyString => None
  | String c r =>
      if skip then option_map S (scanQuoted r false)
      else if Ascii.eqb c "034" then Some O
      else option_map S (scanQuoted r (Ascii.eqb c "\"))
  end.

Fixpoint hasBackslash (s : string) : bool :=
  match s with
  | EmptyString => false
  | String c r => Ascii.eqb c "\" || hasBackslash r
  end.

(** [strconv.Unquote] of the text between two quotes, for a text without
    escapes (the tags of this package have none; one with escapes is
    reported as an error, which the caller treats as a missing tag). *)
Definition unquoteBody (body : string) : option string :=
  if hasBackslash body then None else Some body.

(** [reflect.StructTag.Lookup]: the value of [key] in a tag made of
    [key:"value"] pairs. The scan stops, and the key is reported missing,
    at the first pair that is not well formed. Every round consumes at
    least one byte, which bounds the loop by the tag's length. *)
Fixpoint lookupLoop (fuel : nat) (tag key : string) : option string :=
  match fuel with
  | O => None
  | S fuel' =>
      let tag := skipSpaces tag in
      if String.eqb tag "" then None
      else
        let i := scanKey tag in
        if (i =? 0)%nat || (String.length tag <=? i + 1)%nat
           || negb (time.byteAt tag i ":") || negb (time.byteAt tag (i + 1) "034")
        then None
        else
          let name := substring 0 i tag in
          let tag := substring (i + 1) (String.length tag - (i + 1)) tag in
          match scanQuoted (substring 1 (String.length tag - 1) tag) false with
          | None => None
          | Some n =>
              (* the closing quote is at index n + 1 of tag *)
              let body := substring 1 n tag in
              let tag := substring (n + 2) (String.length tag - (n + 2)) tag in
              if String.eqb key name then unquoteBody body
              else lookupLoop fuel' tag key
          end
  end.

Definition StructTag_Lookup (tag key : string) : option string :=
  lookupLoop (String.length tag) tag key.

(** [StructTag.Get]: the empty string when the key is missing. *)
Definition StructTag_Get (tag key : string) : string :=
  match StructTag_Lookup tag key with
  | Some v => v
  | None => ""
  end.

(** [parseTag]: the name is what stands before the first comma. *)
Fixpoint tagName (tag : string) : string :=
  match tag with
  | EmptyString => ""
  | String c r => if Ascii.eqb c "," then "" else String c (tagName r)
  end.

Definition isLetterOrDigit (c : ascii) : bool :=
  let n := N_of_ascii c in
  ((48 <=? n) && (n <=? 57) || (65 <=? n) && (n <=? 90) || (97 <=? n) && (n <=? 122))%N.

Fixpoint allChars (p : ascii -> bool) (s : string) : bool :=
  match s with
  | EmptyString => true
  | String c r => p c && allChars p r
  end.

Fixpoint inString (c : ascii) (s : string) : bool :=
  match s with
  | EmptyString => false
  | String c' r => Ascii.eqb c c' || inString c r
  end.

(** [isValidTag], on ASCII names: letters, digits and some punctuation. *)
Definition isValidTag (s : string) : bool :=
  negb (String.eqb s "")
  && allChars (fun c => inString c "!#$%&()*+-./:;<=>?@[]^_{|}~ " || isLetterOrDigit c) s.

(** The JSON key of a struct field, from its Go name and its tag; [None]
    for a field the tag ["-"] leaves out. *)
Definition fieldKey (goName tag : string) : option string :=
  let t := StructTag_Get tag "json" in
  if String.eqb t "-" then None
  else
    let name := tagName t in
    let name := if isValidTag name then name else "" in
    Some (if String.eqb name "" then goName else name).

(** A JSON text, as a tree. *)
Inductive Value : Type :=
| VString (s : string)
| VNumber (z : Z)
| VBool (b : bool)
| VArray (elems : list Value)
| VObject (members : list (string * Value)).

(** A struct: its fields in declaration order, each with its Go name, its
    tag and its value. *)
Definition object (fields : list (string * string * Value)) : Value :=
  VObject
    (flat_map
       (fun '(goName, tag, v) =>
          match fieldKey goName tag with
          | Some k => [(k, v)]
          | None => []
          end)
       fields).

Definition keys (v : Value) : list string :=
  match v with
  | VObject members => map fst members
  | _ => []
  end.

(** *** The JSON text of a tree *)

Definition hexDigit (n : N) : ascii :=
  ascii_of_N (if (n <? 10)%N then 48 + n else 87 + n)%N.

(** [htmlSafeSet]: the ASCII bytes written as they are. *)
Definition htmlSafe (c : ascii) : bool :=
  let n := N_of_ascii c in
  ((32 <=? n) && (n <? 128))%N && negb (inString c ("&<>\" ++ dquote)).

(** The escape of an ASCII byte outside [htmlSafeSet]; backspace and form
    feed take the [\u00xx] form, as in the releases before Go 1.22. *)
Definition escapeByte (c : ascii) : string :=
  let n := N_of_ascii c in
  if Ascii.eqb c "\" || Ascii.eqb c "034" then String "\" (String c "")
  else if Ascii.eqb c "010" then "\n"
  else if Ascii.eqb c "013" then "\r"
  else if Ascii.eqb c "009" then "\t"
  else "\u00" ++ String (hexDigit (n / 16)) (String (hexDigit (n mod 16)) "").

Definition between (lo hi : N) (c : ascii) : bool :=
  let n := N_of_ascii c in ((lo <=? n) && (n <=? hi))%N.

(** [utf8.DecodeRuneInString] at a byte of 0x80 or more: the length of the
    encoding that starts with [c], followed by [r], and whether the rune is
    U+2028 or U+2029 (then which); [None] for an invalid encoding. *)
Definition decodeRune (c : ascii) (r : string) : option (nat * option ascii) :=
  let n := N_of_ascii c in
  if between 194 223 c then
    match r with
    | String b1 _ => if between 128 191 b1 then Some (2%nat, None) else None
    | _ => None
    end
  else if between 224 239 c then
    match r with
    | String b1 (String b2 _) =>
        let lo := if (n =? 224)%N then 160%N else 128%N in
        let hi := if (n =? 237)%N then 159%N else 191%N in
        if between lo hi b1 && between 128 191 b2 then
          Some (3%nat,
                if (n =? 226)%N && (N_of_ascii b1 =? 128)%N && between 168 169 b2
                then Some (hexDigit (N_of_ascii b2 mod 16)) else None)
        else None
    | _ => None
    end
  else if between 240 244 c then
    match r with
    | String b1 (String b2 (String b3 _)) =>
        let lo := if (n =? 240)%N then 144%N else 128%N in
        let hi := if (n =? 244)%N then 143%N else 191%N in
        if between lo hi b1 && between 128 191 b2 && between 128 191 b3
        then Some (4%nat, None) else None
    | _ => None
    end
  else None.

(** The body of a JSON string: [skip] bytes of a rune already decoded are
    still to be passed, copied or not. *)
Fixpoint encodeBytes (s : string) (skip : nat) (copy : bool) : string :=
  match s with
  | EmptyString => ""
  | String c r =>
      match skip with
      | S k =>
          if copy then String c (encodeBytes r k copy) else encodeBytes r k copy
      | O =>
          if (N_of_ascii c <? 128)%N then
            if htmlSafe c then String c (encodeBytes r 0 true)
            else escapeByte c ++ encodeBytes r 0 true
          else
            match decodeRune c r with
            | None => "\ufffd" ++ encodeBytes r 0 true
            | Some (size, Some h) => "\u202" ++ String h (encodeBytes r (size - 1) false)
            | Some (size, None) => String c (encodeBytes r (size - 1) true)
            end
      end
  end.

Definition encodeString (s : string) : string :=
  dquote ++ encodeBytes s 0 true ++ dquote.

Fixpoint encode (v : Value) : string :=
  match v with
  | VString s => encodeString s
  | VNumber z => itoa z
  | VBool b => if b then "true" else "false"
  | VArray elems => "[" ++ join "," (map encode elems) ++ "]"
  | VObject members =>
      "{" ++ join "," (map (fun '(k, v) => encodeString k ++ ":" ++ encode v) members) ++ "}"
  end.

End json.

(** ** Package probe (the part the notifier reads) *)

Module probe.

(** Modelled from the spec: the type [probe.Status] is declared outside this
    package; the specification gives it as the enum Up, Down, Unknown. *)
Inductive Status : Type :=
| StatusUp
| StatusDown
| StatusUnknown.

Definition Status_eqb (a b : Status) : bool :=
  match a, b with
  | StatusUp, StatusUp | StatusDown, StatusDown | StatusUnknown, StatusUnknown => true
  | _, _ => false
  end.

(** Modelled from the spec: the statistics of a probe (uptime, downtime,
    total count, and the count per status behind the distribution text). *)
Record Stat : Type := {
  Stat_Total : Z;
  Stat_Status : Status -> Z;
  Stat_UpTime : time.Duration;
  Stat_DownTime : time.Duration
}.

(** Modelled from the spec: the fields of [probe.Result] the notifier reads. *)
Record Result : Type := {
  Result_Name : string;
  Result_Endpoint : string;
  Result_StartTime : time.Time;
  Result_TimeFormat : string;
  Result_RoundTripTime : time.Duration;
  Result_Status : Status;
  Result_Message : string;
  Result_Stat : Stat
}.

(** The methods and functions of package probe that the notifier calls;
    their code is outside this package, so they are parameters. *)
Class API : Type := {
  Format : Type;
  Makerdown : Format;
  Status_Emoji : Status -> string;
  Status_String : Status -> string;
  Result_Title : Result -> string;
  Result_SLA : Result -> float64;
  StatStatusText : Stat -> Format -> string
}.

(** A [probe.Prober], seen through its [Result()] accessor. *)
Record Prober : Type := { Prober_Result : Result }.

End probe.

(** ** Package net/http (requests, clients, responses) *)

Module http.

Definition MethodPost : string := "POST".

(** A parsed URL, as [url.Parse] returns it. *)
Record URL : Type := { URL_String : string }.

Record Request : Type := {
  Request_Method : string;
  Request_URL : URL;
  Request_Body : string;
  Request_Close : bool;
  Request_Header : list (string * string)
}.

Record Client : Type := { Client_Timeout : time.Duration }.

(** A response, with the bytes read from its body. *)
Record Response : Type := {
  Response_StatusCode : Z;
  Response_Body : string
}.

(** [req.Header.Add(key, value)]. *)
Definition Header_Add (req : Request) (key value : string) : Request :=
  {| Request_Method := Request_Method req;
     Request_URL := Request_URL req;
     Request_Body := Request_Body req;
     Request_Close := Request_Close req;
     Request_Header := Request_Header req ++ [(key, value)] |}.

Definition set_Close (req : Request) (b : bool) : Request :=
  {| Request_Method := Request_Method req;
     Request_URL := Request_URL req;
     Request_Body := Request_Body req;
     Request_Close := b;
     Request_Header := Request_Header req |}.

End http.

(** ** The world the notifier acts on: the log sink and the network *)

(** logrus levels used by the notifier. *)
Inductive Level : Type :=
| ErrorLevel
| InfoLevel.

Record Entry : Type := { Entry_Level : Level; Entry_Message : string }.

(** What a call leaves behind: the log entries written and the HTTP
    requests issued, oldest first. *)
Record World : Type := {
  World_log : list Entry;
  World_http : list (http.Client * http.Request)
}.

Definition World_empty : World := {| World_log := []; World_http := [] |}.

(** A computation that reads and extends the world. *)
Definition M (A : Type) : Type := World -> A * World.

Definition ret {A : Type} (a : A) : M A := fun w => (a, w).
Definition bind {A B : Type} (m : M A) (k : A -> M B) : M B :=
  fun w => let '(a, w') := m w in k a w'.

Notation "x <- m ;; k" := (bind m (fun x => k))
  (at level 61, m at next level, right associativity).
Notation "m ;;; k" := (bind m (fun _ => k))
  (at level 61, right associativity).

Definition write_log (lvl : Level) (msg : string) : M unit :=
  fun w =>
    (tt, {| World_log := World_log w ++ [{| Entry_Level := lvl; Entry_Message := msg |}];
            World_http := World_http w |}).

Definition record_http (c : http.Client) (req : http.Request) : M unit :=
  fun w =>
    (tt, {| World_log := World_log w; World_http := World_http w ++ [(c, req)] |}).

(** ** Package discord *)

Module discord.

Record Thumbnail : Type := { Thumbnail_URL : string }.

Record Fields : Type := {
  Fields_Name : string;
  Fields_Value : string;
  Fields_Inline : bool
}.

Record Footer : Type := { Footer_Text : string; Footer_IconURL : string }.

Record Author : Type := {
  Author_Name : string;
  Author_URL : string;
  Author_IconURL : string
}.

Record Embed : Type := {
  Embed_Author : Author;
  Embed_Title : string;
  Embed_URL : string;
  Embed_Color : Z;
  Embed_Description : string;
  Embed_Timestamp : string;
  Embed_Thumbnail : Thumbnail;
  Embed_Fields : list Fields;
  Embed_Footer : Footer
}.

Record Discord : Type := {
  Username : string;
  AvatarURL : string;
  Content : string;
  Embeds : list Embed
}.

Record NotifyConfig : Type := { WebhookURL : string; Dry : bool }.

(** *** The struct tags, as the source writes them *)

(** A well-formed tag [json:"name"]. *)
Definition tag (name : string) : string := "json:" ++ dquote ++ name ++ dquote.

Definition Thumbnail_tags : list (string * string) := [("URL", tag "url")].
Definition Fields_tags : list (string * string) :=
  [("Name", tag "name"); ("Value", tag "value"); ("Inline", tag "inline")].
Definition Footer_tags : list (string * string) :=
  [("Text", tag "text"); ("IconURL", tag "icon_url")].
(** The tag of [URL] opens the quote before url and never closes it; the
    tag of [IconURL], json:icon_url, has no quote at all. *)
Definition Author_tags : list (string * string) :=
  [("Name", tag "name"); ("URL", "json:" ++ dquote ++ "url"); ("IconURL", "json:icon_url")].
Definition Embed_tags : list (string * string) :=
  [("Author", tag "author"); ("Title", tag "title"); ("URL", tag "url");
   ("Color", tag "color"); ("Description", tag "description");
   ("Timestamp", tag "timestamp"); ("Thumbnail", tag "thumbnail");
   ("Fields", tag "fields"); ("Footer", tag "footer")].
Definition Discord_tags : list (string * string) :=
  [("Username", tag "username"); ("AvatarURL", tag "avatar_url");
   ("Content", tag "content"); ("Embeds", tag "embeds")].

(** A struct as encoding/json sees it: its fields' names and tags zipped
    with their values. *)
Definition struct (tags : list (string * string)) (values : list json.Value) : json.Value :=
  json.object (map (fun '((n, t), v) => (n, t, v)) (combine tags values)).

Definition Thumbnail_json (t : Thumbnail) : json.Value :=
  struct Thumbnail_tags [json.VString (Thumbnail_URL t)].
Definition Fields_json (f : Fields) : json.Value :=
  struct Fields_tags
    [json.VString (Fields_Name f); json.VString (Fields_Value f); json.VBool (Fields_Inline f)].
Definition Footer_json (f : Footer) : json.Value :=
  struct Footer_tags [json.VString (Footer_Text f); json.VString (Footer_IconURL f)].
Definition Author_json (a : Author) : json.Value :=
  struct Author_tags
    [json.VString (Author_Name a); json.VString (Author_URL a); json.VString (Author_IconURL a)].
Definition Embed_json (e : Embed) : json.Value :=
  struct Embed_tags
    [Author_json (Embed_Author e); json.VString (Embed_Title e); json.VString (Embed_URL e);
     json.VNumber (Embed_Color e); json.VString (Embed_Description e);
     json.VString (Embed_Timestamp e); Thumbnail_json (Embed_Thumbnail e);
     json.VArray (map Fields_json (Embed_Fields e)); Footer_json (Embed_Footer e)].
Definition Discord_json (d : Discord) : json.Value :=
  struct Discord_tags
    [json.VString (Username d); json.VString (AvatarURL d); json.VString (Content d);
     json.VArray (map Embed_json (Embeds d))].

(** [json.Marshal] of a [Discord]: strings, integers, booleans, structs and
    non-nil slices only, so the encoder has nothing to refuse. *)
Definition Marshal (d : Discord) : result string error :=
  Ok (json.encode (Discord_json d)).

(** *** The values as operands of fmt *)

Definition Author_arg (a : Author) : fmt.Arg :=
  fmt.AStruct "discord.Author"
    [fmt.AString (Author_Name a); fmt.AString (Author_URL a); fmt.AString (Author_IconURL a)].
Definition Fields_arg (f : Fields) : fmt.Arg :=
  fmt.AStruct "discord.Fields"
    [fmt.AString (Fields_Name f); fmt.AString (Fields_Value f); fmt.ABool (Fields_Inline f)].
Definition Embed_arg (e : Embed) : fmt.Arg :=
  fmt.AStruct "discord.Embed"
    [Author_arg (Embed_Author e); fmt.AString (Embed_Title e); fmt.AString (Embed_URL e);
     fmt.AInt "int" (Embed_Color e); fmt.AString (Embed_Description e);
     fmt.AString (Embed_Timestamp e);
     fmt.AStruct "discord.Thumbnail" [fmt.AString (Thumbnail_URL (Embed_Thumbnail e))];
     fmt.ASlice "[]discord.Fields" (map Fields_arg (Embed_Fields e));
     fmt.AStruct "discord.Footer"
       [fmt.AString (Footer_Text (Embed_Footer e)); fmt.AString (Footer_IconURL (Embed_Footer e))]].
Definition Discord_arg (d : Discord) : fmt.Arg :=
  fmt.AStruct "discord.Discord"
    [fmt.AString (Username d); fmt.AString (AvatarURL d); fmt.AString (Content d);
     fmt.ASlice "[]discord.Embed" (map Embed_arg (Embeds d))].
Definition NotifyConfig_arg (c : NotifyConfig) : fmt.Arg :=
  fmt.AStruct "discord.NotifyConfig" [fmt.AString (WebhookURL c); fmt.ABool (Dry c)].
Definition Duration_arg (d : time.Duration) : fmt.Arg :=
  fmt.AStringer "time.Duration" (time.Duration_String d) (Some (fmt.AInt "time.Duration" d)).
Definition error_arg (e : error) : fmt.Arg :=
  fmt.AStringer "error" (Error e) None.

(** *** The Go runtime the notifier runs on *)

(** The library calls whose outcome the package does not decide: the JSON
    encoder (its signature allows an error), the URL parser behind
    [http.NewRequest], the round trip of [client.Do], the layouts of
    [Time.Format] other than RFC3339, and [strconv.FormatFloat]. *)
Class Platform : Type := {
  json_Marshal : Discord -> result string error;
  url_Parse : string -> result http.URL error;
  http_RoundTrip : http.Client -> http.Request -> result http.Response error;
  Time_Format_layout : time.Time -> string -> string;
  strconv_FormatFloat : float64 -> ascii -> Z -> string
}.

Section Notifier.

Context {P : probe.API} {G : Platform}.

Definition Sprintf : string -> list fmt.Arg -> string := fmt.Sprintf strconv_FormatFloat.

Definition log_Infof (format : string) (args : list fmt.Arg) : M unit :=
  write_log InfoLevel (Sprintf format args).
Definition log_Errorf (format : string) (args : list fmt.Arg) : M unit :=
  write_log ErrorLevel (Sprintf format args).
Definition log_Infoln (args : list fmt.Arg) : M unit :=
  write_log InfoLevel (fmt.sprintlnn strconv_FormatFloat args).

(** [t.Format(layout)]. *)
Definition Time_Format (t : time.Time) (layout : string) : string :=
  if String.eqb layout time.RFC3339 then time.Time_Format_RFC3339 t
  else Time_Format_layout t layout.

(** [http.NewRequest(method, url, body)]: fails when the URL does not parse. *)
Definition http_NewRequest (method url body : string) : result http.Request error :=
  match url_Parse url with
  | Err e => Err e
  | Ok u =>
      Ok {| http.Request_Method := method;
            http.Request_URL := u;
            http.Request_Body := body;
            http.Request_Close := false;
            http.Request_Header := [] |}
  end.

(** [client.Do(req)]: the request goes out, and the round trip answers. *)
Definition Client_Do (client : http.Client) (req : http.Request)
  : M (result http.Response error) :=
  record_http client req ;;; ret (http_RoundTrip client req).

(** Kind return the type of Notify *)
Definition Kind (c : NotifyConfig) : string := "discord".

(** Config configures the log files *)
Definition Config (c : NotifyConfig) : M (option error) :=
  (if Dry c then
     log_Infof "Notification %s is running on Dry mode!" [fmt.AString (Kind c)]
   else ret tt) ;;;
  ret None.

(** NewDiscord new a discord object from a result *)
Definition NewDiscord (c : NotifyConfig) (result : probe.Result) : Discord :=
  let color := 1091331 in
  let color :=
    if negb (probe.Status_eqb (probe.Result_Status result) probe.StatusUp)
    then 10945283 else color in
  let rtt := time.Duration_Round (probe.Result_RoundTripTime result) time.Millisecond in
  let description :=
    Sprintf ("%s %s - ⏱ %s" ++ nl ++ "```%s```")
      [fmt.AString (probe.Status_Emoji (probe.Result_Status result));
       fmt.AString (probe.Result_Endpoint result);
       Duration_arg rtt;
       fmt.AString (probe.Result_Message result)] in
  {| Username := "Easeprobe";
     AvatarURL := "https://megaease.cn/favicon.png";
     Content := "";
     Embeds :=
       ([] ++ [{| Embed_Author := {| Author_Name := ""; Author_URL := ""; Author_IconURL := "" |};
                 Embed_Title := probe.Result_Title result;
                 Embed_URL := "";
                 Embed_Color := color;
                 Embed_Description := description;
                 Embed_Timestamp :=
                   Time_Format (time.Time_UTC (probe.Result_StartTime result)) time.RFC3339;
                 Embed_Thumbnail := {| Thumbnail_URL := "https://megaease.cn/favicon.png" |};
                 Embed_Fields := [];
                 Embed_Footer :=
                   {| Footer_Text := "Probed at";
                      Footer_IconURL := "https://megaease.cn/favicon.png" |} |}])%list |}.

(** SendDiscordNotification will post to an 'Incoming Webhook' url *)
Definition SendDiscordNotification (c : NotifyConfig) (discord : Discord) : M (option error) :=
  match json_Marshal discord with
  | Err err => ret (Some err)
  | Ok json =>
      match http_NewRequest http.MethodPost (WebhookURL c) json with
      | Err err => ret (Some err)
      | Ok req =>
          let req := http.set_Close req true in
          let req := http.Header_Add req "Content-Type" "application/json" in
          let client := {| http.Client_Timeout := 10 * time.Second |} in
          r <- Client_Do client req ;;
          match r with
          | Err err => ret (Some err)
          | Ok resp =>
              if negb (http.Response_StatusCode resp =? 204) then
                ret (Some (errors_New
                             (Sprintf "Error response from Discord [%d] - [%s]"
                                [fmt.AInt "int" (http.Response_StatusCode resp);
                                 fmt.AString (http.Response_Body resp)])))
              else ret None
          end
      end
  end.

(** DryNotify just log the notification message *)
Definition DryNotify (c : NotifyConfig) (result : probe.Result) : M unit :=
  let discord := NewDiscord c result in
  match json_Marshal discord with
  | Err err => log_Errorf "error : %v" [error_arg err]
  | Ok json => log_Infof "[%s] Dry notify - %s" [fmt.AString (Kind c); fmt.AString json]
  end.

(** Notify write the message into the slack *)
Definition Notify (c : NotifyConfig) (result : probe.Result) : M unit :=
  if Dry c then DryNotify c result
  else
    let discord := NewDiscord c result in
    err <- SendDiscordNotification c discord ;;
    match err with
    | Some err =>
        log_Errorf "%v" [error_arg err] ;;;
        match json_Marshal discord with
        | Err _ => log_Errorf "Notify[%s] - %v" [fmt.AString (Kind c); Discord_arg discord]
        | Ok json => log_Errorf "Notify[%s] - %s" [fmt.AString (Kind c); fmt.AString json]
        end
    | None =>
        log_Infof "Sent the Discord notification for %s (%s)!"
          [fmt.AString (probe.Result_Name result); fmt.AString (probe.Result_Endpoint result)]
    end.

(** NewEmbed new a embed object from a result *)
Definition NewEmbed (c : NotifyConfig) (result : probe.Result) : Embed :=
  let message :=
    "**Availability**" ++ nl ++ ">" ++ tab ++ " **Up**:  `%s`  **Down** `%s`  -  **SLA**: `%.2f %%`"
      ++ nl ++ "**Probe Times**" ++ nl ++ ">" ++ tab ++ "**Total** : `%d` ( %s )"
      ++ nl ++ "**Lastest Probe**" ++ nl ++ ">" ++ tab ++ "%s | %s"
      ++ nl ++ ">" ++ tab ++ "`%s ` " in
  let desc :=
    Sprintf message
      [Duration_arg (time.Duration_Round (probe.Stat_UpTime (probe.Result_Stat result)) time.Second);
       Duration_arg (time.Duration_Round (probe.Stat_DownTime (probe.Result_Stat result)) time.Second);
       fmt.AFloat64 (probe.Result_SLA result);
       fmt.AInt "int64" (probe.Stat_Total (probe.Result_Stat result));
       fmt.AString (probe.StatStatusText (probe.Result_Stat result) probe.Makerdown);
       fmt.AString
         (Time_Format (time.Time_UTC (probe.Result_StartTime result)) (probe.Result_TimeFormat result));
       fmt.AString
         (probe.Status_Emoji (probe.Result_Status result) ++ " "
            ++ probe.Status_String (probe.Result_Status result));
       fmt.AString (probe.Result_Message result)] in
  {| Embed_Author := {| Author_Name := ""; Author_URL := ""; Author_IconURL := "" |};
     Embed_Title :=
       Sprintf "%s - %s"
         [fmt.AString (probe.Result_Name result); fmt.AString (probe.Result_Endpoint result)];
     Embed_URL := "";
     Embed_Color := 239;
     Embed_Description := desc;
     Embed_Timestamp := "";
     Embed_Thumbnail := {| Thumbnail_URL := "" |};
     Embed_Fields := [];
     Embed_Footer := {| Footer_Text := ""; Footer_IconURL := "" |} |}.

(** NewEmbeds return a discord with multiple Embed *)
Definition NewEmbeds (c : NotifyConfig) (probers : list probe.Prober) : Discord :=
  {| Username := "Easeprobe";
     AvatarURL := "https://megaease.cn/favicon.png";
     Content := "**Overall SLA Report**";
     Embeds :=
       fold_left (fun embeds p => (embeds ++ [NewEmbed c (probe.Prober_Result p)])%list) probers [] |}.

(** DryNotifyStat just log the notification message *)
Definition DryNotifyStat (c : NotifyConfig) (probers : list probe.Prober) : M unit :=
  let discord := NewEmbeds c probers in
  match json_Marshal discord with
  | Err err => log_Errorf "error : %v" [error_arg err]
  | Ok json => log_Infof "[%s] Dry notify - %s" [fmt.AString (Kind c); fmt.AString json]
  end.

(** NotifyStat write the all probe stat message to slack *)
Definition NotifyStat (c : NotifyConfig) (probers : list probe.Prober) : M unit :=
  if Dry c then DryNotifyStat c probers
  else
    let discord := NewEmbeds c probers in
    err <- SendDiscordNotification c discord ;;
    match err with
    | Some err =>
        log_Errorf "%v" [error_arg err] ;;;
        match json_Marshal discord with
        | Err _ => log_Errorf "Notify[%s] - %v" [fmt.AString (Kind c); Discord_arg discord]
        | Ok json =>
            log_Errorf "Notify[%s] - %s"
              [NotifyConfig_arg c; fmt.AString (Kind c); fmt.AString json]
        end
    | None => log_Infoln [fmt.AString "Sent the Statstics to Slack Successfully!"]
    end.

End Notifier.

End discord.

(** ** Sample implementations, to run the model on concrete inputs *)

Definition demo_API : probe.API :=
  {| probe.Format := unit;
     probe.Makerdown := tt;
     probe.Status_Emoji :=
       fun s =>
         match s with
         | probe.StatusUp => "✅"
         | probe.StatusDown => "❌"
         | probe.StatusUnknown => "⛔"
         end;
     probe.Status_String :=
       fun s =>
         match s with
         | probe.StatusUp => "up"
         | probe.StatusDown => "down"
         | probe.StatusUnknown => "unknown"
         end;
     probe.Result_Title := fun r => probe.Result_Name r;
     probe.Result_SLA := fun _ => {| float64_bits := 0 |};
     probe.StatStatusText := fun _ _ => "" |}.

(** A runtime whose network gives one fixed answer and whose encoder is
    the model of encoding/json above. *)
Definition demo_Platform (answer : result http.Response error) : discord.Platform :=
  {| discord.json_Marshal := discord.Marshal;
     discord.url_Parse := fun s => Ok {| http.URL_String := s |};
     discord.http_RoundTrip := fun _ _ => answer;
     discord.Time_Format_layout := fun t _ => time.Time_Format_RFC3339 t;
     discord.strconv_FormatFloat := fun _ _ _ => "0.00" |}.

(** The same runtime with an encoder that refuses every value. *)
Definition refusing_Platform (answer : result http.Response error) : discord.Platform :=
  {| discord.json_Marshal := fun _ => Err (errors_New "json: unsupported value");
     discord.url_Parse := fun s => Ok {| http.URL_String := s |};
     discord.http_RoundTrip := fun _ _ => answer;
     discord.Time_Format_layout := fun t _ => time.Time_Format_RFC3339 t;
     discord.strconv_FormatFloat := fun _ _ _ => "0.00" |}.

Definition demo_config : discord.NotifyConfig :=
  {| discord.WebhookURL := "https://discord.com/api/webhooks/1/t"; discord.Dry := false |}.

Definition demo_dry_config : discord.NotifyConfig :=
  {| discord.WebhookURL := "https://discord.com/api/webhooks/1/t"; discord.Dry := true |}.

Definition demo_stat : probe.Stat :=
  {| probe.Stat_Total := 10;
     probe.Stat_Status := fun _ => 0;
     probe.Stat_UpTime := 90 * time.Minute + 499 * time.Millisecond;
     probe.Stat_DownTime := 1500 * time.Millisecond |}.

(** A probe that started half a second after 2023-11-14T22:13:20Z and took
    1,234,567 nanoseconds. *)
Definition demo_result : probe.Result :=
  {| probe.Result_Name := "web";
     probe.Result_Endpoint := "https://example.com";
     probe.Result_StartTime :=
       {| time.unixSec := 1700000000; time.nsec := 500000000; time.loc := time.UTC |};
     probe.Result_TimeFormat := "2006-01-02 15:04:05 UTC";
     probe.Result_RoundTripTime := 1234567;
     probe.Result_Status := probe.StatusUp;
     probe.Result_Message := "ok";
     probe.Result_Stat := demo_stat |}.

Definition demo_prober : probe.Prober := {| probe.Prober_Result := demo_result |}.

(** A probe dated at the first second of the year 10000. *)
Definition far_result : probe.Result :=
  {| probe.Result_Name := "web";
     probe.Result_Endpoint := "https://example.com";
     probe.Result_StartTime :=
       {| time.unixSec := 253402300800; time.nsec := 0; time.loc := time.UTC |};
     probe.Result_TimeFormat := "2006-01-02 15:04:05 UTC";
     probe.Result_RoundTripTime := 1234567;
     probe.Result_Status := probe.StatusUp;
     probe.Result_Message := "ok";
     probe.Result_Stat := demo_stat |}.

Definition answer_500 : result http.Response error :=
  Ok {| http.Response_StatusCode := 500; http.Response_Body := "oops" |}.
Definition answer_204 : result http.Response error :=
  Ok {| http.Response_StatusCode := 204; http.Response_Body := "" |}.

(** A runtime whose URL parser refuses every URL. *)
Definition badurl_Platform : discord.Platform :=
  {| discord.json_Marshal := discord.Marshal;
     discord.url_Parse := fun _ => Err (errors_New "parse: missing protocol scheme");
     discord.http_RoundTrip := fun _ _ => answer_204;
     discord.Time_Format_layout := fun t _ => time.Time_Format_RFC3339 t;
     discord.strconv_FormatFloat := fun _ _ _ => "0.00" |}.

(** A runtime whose network is down. *)
Definition answer_timeout : result http.Response error :=
  Err (errors_New "context deadline exceeded").

(** The probe of [demo_result], its start time seen from a zone five and
    a half hours east of UTC, and a round trip of 0.4 ms. *)
Definition east_result : probe.Result :=
  {| probe.Result_Name := "web";
     probe.Result_Endpoint := "https://example.com";
     probe.Result_StartTime :=
       {| time.unixSec := 1700000000; time.nsec := 500000000;
          time.loc := time.FixedZone "IST" 19800 |};
     probe.Result_TimeFormat := "2006-01-02 15:04:05 UTC";
     probe.Result_RoundTripTime := 400000;
     probe.Result_Status := probe.StatusDown;
     probe.Result_Message := "refused";
     probe.Result_Stat := demo_stat |}.

(** A sample of [url.Parse], with the two refusals it starts with: a
    control byte anywhere in the text, and a colon where the scheme should
    begin (as in ://bad). What stands after a # is no part of the text it
    parses. The other refusals of net/url are left out; this sample accepts
    the rest. *)
Fixpoint beforeFragment (s : string) : string :=
  match s with
  | EmptyString => ""
  | String c r => if Ascii.eqb c "#" then "" else String c (beforeFragment r)
  end.

Fixpoint containsCTLByte (s : string) : bool :=
  match s with
  | EmptyString => false
  | String c r =>
      (N_of_ascii c <? 32)%N || (N_of_ascii c =? 127)%N || containsCTLByte r
  end.

Definition demo_url_Parse (rawURL : string) : result http.URL error :=
  let u := beforeFragment rawURL in
  if containsCTLByte u then
    Err (errors_New ("parse " ++ dquote ++ u ++ dquote
                       ++ ": net/url: invalid control character in URL"))
  else
    match u with
    | String ":" _ =>
        Err (errors_New ("parse " ++ dquote ++ u ++ dquote ++ ": missing protocol scheme"))
    | _ => Ok {| http.URL_String := rawURL |}
    end.

(** A runtime with that parser, the encoder of the model and a network
    that gives one fixed answer. *)
Definition strict_Platform (answer : result http.Response error) : discord.Platform :=
  {| discord.json_Marshal := discord.Marshal;
     discord.url_Parse := demo_url_Parse;
     discord.http_RoundTrip := fun _ _ => answer;
     discord.Time_Format_layout := fun t _ => time.Time_Format_RFC3339 t;
     discord.strconv_FormatFloat := fun _ _ _ => "0.00" |}.

(** A live configuration whose webhook has no scheme. *)
Definition bad_config : discord.NotifyConfig :=
  {| discord.WebhookURL := "://bad"; discord.Dry := false |}.

(** ** Vocabulary of the statements *)

Import discord.

Section Vocabulary.

Context {G : Platform}.

(** The request [SendDiscordNotification] builds for a parsed URL and a body. *)
Definition webhook_request (u : http.URL) (body : string) : http.Request :=
  {| http.Request_Method := "POST";
     http.Request_URL := u;
     http.Request_Body := body;
     http.Request_Close := true;
     http.Request_Header := [("Content-Type", "application/json")] |}.

Definition webhook_client : http.Client := {| http.Client_Timeout := 10 * time.Second |}.

(** The outcome of a delivery whose request could be built. *)
Definition outcome (r : result http.Response error) : option error :=
  match r with
  | Err err => Some err
  | Ok resp =>
      if http.Response_StatusCode resp =? 204 then None
      else Some (errors_New ("Error response from Discord ["
                               ++ itoa (http.Response_StatusCode resp) ++ "] - ["
                               ++ http.Response_Body resp ++ "]"))
  end.

(** What the second error entry holds after a failed delivery: the JSON
    text of the payload, or its [%v] form when it does not serialize. *)
Definition diagnostic (d : Discord) (with_json : string -> string) : string :=
  match json_Marshal d with
  | Ok json => with_json json
  | Err _ => "Notify[discord] - " ++ fmt.fmtArg strconv_FormatFloat "v" None (Discord_arg d)
  end.

(** The log entries a live [Notify] writes after its delivery. *)
Definition Notify_entries (result : probe.Result) (json : string) (err : option error)
  : list Entry :=
  match err with
  | None =>
      [{| Entry_Level := InfoLevel;
          Entry_Message :=
            "Sent the Discord notification for " ++ probe.Result_Name result
              ++ " (" ++ probe.Result_Endpoint result ++ ")!" |}]
  | Some e =>
      [{| Entry_Level := ErrorLevel; Entry_Message := Error e |};
       {| Entry_Level := ErrorLevel; Entry_Message := "Notify[discord] - " ++ json |}]
  end.

(** A request as [SendDiscordNotification] sends it for a payload: by the
    10-second client, to the parsed webhook URL, with the JSON text of the
    payload as its body. *)
Definition sent_by (c : NotifyConfig) (d : Discord) (cr : http.Client * http.Request) : Prop :=
  exists u body,
    url_Parse (WebhookURL c) = Ok u
    /\ json_Marshal d = Ok body
    /\ cr = (webhook_client, webhook_request u body).

End Vocabulary.

(** The days, counted from the absolute zero year, of the years 0 to 9999:
    the first day of the year 0 and the first day of the year 10000. *)
Definition dayLo : Z := 106751990353566.
Definition dayHi : Z := 106751994005991.

(** * Properties *)

(** ** Lists and strings *)

Lemma fold_left_snoc_map (A B : Type) (f : A -> B) (l : list A) (init : list B) :
  fold_left (fun acc x => (acc ++ [f x])%list) l init = (init ++ map f l)%list.
Proof.
  revert init; induction l as [|x l IH]; intros init; simpl.
  - now rewrite app_nil_r.
  - rewrite IH, <- app_assoc. reflexivity.
Qed.

Lemma append_nil_r (s : string) : s ++ "" = s.
Proof. induction s as [|c s IH]; simpl; [reflexivity | now rewrite IH]. Qed.

Lemma append_assoc (a b c : string) : (a ++ b) ++ c = a ++ (b ++ c).
Proof. induction a as [|x a IH]; simpl; [reflexivity | now rewrite IH]. Qed.

(** Brings a concatenation of literals and variables to its right-nested form. *)
Ltac string_norm :=
  repeat (progress (rewrite ?append_nil_r, ?append_assoc; cbn [append])).

Section Rendering.

Context {P : probe.API} {G : Platform}.

Lemma NewEmbeds_map (c : NotifyConfig) (probers : list probe.Prober) :
  Embeds (NewEmbeds c probers) = map (fun p => NewEmbed c (probe.Prober_Result p)) probers.
Proof. unfold NewEmbeds; simpl. now rewrite fold_left_snoc_map. Qed.

(** C1. The payload of [NewDiscord] has exactly one embed; its color is
    1091331 when the status is Up and 10945283 when it is Down or Unknown,
    and the two colors differ. *)
Theorem NewDiscord_single_embed_color (c : NotifyConfig) (result : probe.Result) :
  map Embed_Color (Embeds (NewDiscord c result))
  = [match probe.Result_Status result with
     | probe.StatusUp => 1091331
     | probe.StatusDown => 10945283
     | probe.StatusUnknown => 10945283
     end]
  /\ 1091331 <> 10945283.
Proof.
  split; [|discriminate].
  unfold NewDiscord; simpl.
  destruct (probe.Result_Status result); reflexivity.
Qed.

(** C4. For a list of N probers, [NewEmbeds] yields a payload with exactly
    N embeds, each of color 239 (which is neither of the two colors of a
    single result) and with an empty timestamp, under the content line
    "**Overall SLA Report**"; for no prober the payload has no embed. *)
Theorem NewEmbeds_count_color_content (c : NotifyConfig) (probers : list probe.Prober) :
  List.length (Embeds (NewEmbeds c probers)) = List.length probers
  /\ Forall (fun e => Embed_Color e = 239 /\ Embed_Timestamp e = "")
       (Embeds (NewEmbeds c probers))
  /\ 239 <> 1091331 /\ 239 <> 10945283
  /\ Content (NewEmbeds c probers) = "**Overall SLA Report**"
  /\ Embeds (NewEmbeds c []) = [].
Proof.
  rewrite NewEmbeds_map.
  repeat split; try discriminate.
  - now rewrite length_map.
  - apply Forall_forall. intros e He.
    apply in_map_iff in He as (p & <- & _). split; reflexivity.
Qed.

(** C10. [NewEmbeds] keeps the order of the probers: the embed at index i
    is [NewEmbed] of the result of the prober at index i, and there is an
    embed at index i exactly when there is a prober. *)
Theorem NewEmbeds_preserves_order (c : NotifyConfig) (probers : list probe.Prober) (i : nat) :
  nth_error (Embeds (NewEmbeds c probers)) i
  = option_map (fun p => NewEmbed c (probe.Prober_Result p)) (nth_error probers i).
Proof. rewrite NewEmbeds_map. apply nth_error_map. Qed.

(** C5 (the code at the failing input). Eleven probers give a payload of
    eleven embeds, one more than the ten a Discord message may hold. *)
Theorem NewEmbeds_eleven_probers (c : NotifyConfig) (p : probe.Prober) :
  List.length (Embeds (NewEmbeds c (repeat p 11))) = 11%nat
  /\ (10 < List.length (Embeds (NewEmbeds c (repeat p 11))))%nat.
Proof. rewrite NewEmbeds_map, length_map, repeat_length. split; [reflexivity | lia]. Qed.

End Rendering.

(** The encoder honours a well-formed tag: the footer's keys are those of
    its tags. *)
Lemma Footer_json_keys (f : Footer) : json.keys (Footer_json f) = ["text"; "icon_url"].
Proof. reflexivity. Qed.

(** C9 (the code at the failing input). The tags of [Author.URL] and
    [Author.IconURL] are malformed, so encoding/json falls back on the Go
    field names: the keys of an author object are name, URL and IconURL,
    not name, url and icon_url. *)
Theorem Author_json_keys (a : Author) :
  json.keys (Author_json a) = ["name"; "URL"; "IconURL"]
  /\ json.keys (Author_json a) <> ["name"; "url"; "icon_url"].
Proof. split; [reflexivity | discriminate]. Qed.

(** ** What the format strings of the notifier print *)

Section Formats.

Context {G : Platform}.

Lemma Sprintf_v_error (e : error) : Sprintf "%v" [error_arg e] = Error e.
Proof. unfold Sprintf, fmt.Sprintf; cbn. apply append_nil_r. Qed.

Lemma Sprintf_dry (k json : string) :
  Sprintf "[%s] Dry notify - %s" [fmt.AString k; fmt.AString json]
  = "[" ++ k ++ "] Dry notify - " ++ json.
Proof. unfold Sprintf, fmt.Sprintf; cbn. string_norm. reflexivity. Qed.

Lemma Sprintf_notify_s (k json : string) :
  Sprintf "Notify[%s] - %s" [fmt.AString k; fmt.AString json]
  = "Notify[" ++ k ++ "] - " ++ json.
Proof. unfold Sprintf, fmt.Sprintf; cbn. string_norm. reflexivity. Qed.

Lemma Sprintf_notify_v (k : string) (a : fmt.Arg) :
  Sprintf "Notify[%s] - %v" [fmt.AString k; a]
  = "Notify[" ++ k ++ "] - " ++ fmt.fmtArg strconv_FormatFloat "v" None a.
Proof. unfold Sprintf, fmt.Sprintf; cbn. string_norm. reflexivity. Qed.

(** The call at line 204 passes three operands to a format of two verbs:
    the config is printed under the first [%s], the kind under the second,
    and the JSON text is reported as an extra operand. *)
Lemma Sprintf_notify_stat (c : NotifyConfig) (k json : string) :
  Sprintf "Notify[%s] - %s" [NotifyConfig_arg c; fmt.AString k; fmt.AString json]
  = "Notify[{" ++ WebhookURL c ++ " %!s(bool=" ++ fmt.boolString (Dry c) ++ ")}] - "
      ++ k ++ "%!(EXTRA string=" ++ json ++ ")".
Proof. unfold Sprintf, fmt.Sprintf; cbn. string_norm. reflexivity. Qed.

Lemma Sprintf_error_response (code : Z) (body : string) :
  Sprintf "Error response from Discord [%d] - [%s]" [fmt.AInt "int" code; fmt.AString body]
  = "Error response from Discord [" ++ itoa code ++ "] - [" ++ body ++ "]".
Proof. unfold Sprintf, fmt.Sprintf; cbn -[itoa]. string_norm. reflexivity. Qed.

Lemma Sprintf_description (emoji endpoint message : string) (rtt : time.Duration) :
  Sprintf ("%s %s - ⏱ %s" ++ nl ++ "```%s```")
    [fmt.AString emoji; fmt.AString endpoint; Duration_arg rtt; fmt.AString message]
  = emoji ++ " " ++ endpoint ++ " - ⏱ " ++ time.Duration_String rtt ++ nl
      ++ "```" ++ message ++ "```".
Proof.
  unfold Sprintf, fmt.Sprintf; cbn -[time.Duration_String]. string_norm. reflexivity.
Qed.

End Formats.

(** ** Delivery, dry runs and failures *)

Section Delivery.

Context {P : probe.API} {G : Platform}.

Lemma SendDiscordNotification_log (c : NotifyConfig) (d : Discord) (w : World) :
  World_log (snd (SendDiscordNotification c d w)) = World_log w.
Proof.
  unfold SendDiscordNotification, http_NewRequest.
  destruct (json_Marshal d); [|reflexivity].
  destruct (url_Parse (WebhookURL c)); [|reflexivity].
  unfold bind, Client_Do, record_http, ret; cbn.
  destruct (http_RoundTrip _ _) as [resp|e]; [|reflexivity].
  destruct (negb _); reflexivity.
Qed.

Lemma SendDiscordNotification_built
  (c : NotifyConfig) (d : Discord) (w : World) (body : string) (u : http.URL) :
  json_Marshal d = Ok body ->
  url_Parse (WebhookURL c) = Ok u ->
  SendDiscordNotification c d w
  = (outcome (http_RoundTrip webhook_client (webhook_request u body)),
     {| World_log := World_log w;
        World_http := World_http w ++ [(webhook_client, webhook_request u body)] |}).
Proof.
  intros Hm Hu.
  unfold SendDiscordNotification, http_NewRequest. rewrite Hm, Hu.
  unfold bind, Client_Do, record_http, ret, webhook_client, webhook_request.
  unfold http.Header_Add, http.set_Close, http.MethodPost, time.Second, time.Millisecond,
    time.Microsecond, time.Nanosecond.
  cbn -[Sprintf outcome].
  destruct (http_RoundTrip _ _) as [resp|e]; cbn -[Sprintf itoa].
  - destruct (http.Response_StatusCode resp =? 204); cbn -[Sprintf itoa]; [reflexivity|].
    now rewrite Sprintf_error_response.
  - reflexivity.
Qed.

(** C2, as amended. When the payload serializes and the webhook URL parses,
    [SendDiscordNotification] issues exactly one request: a POST to the
    configured URL carrying the serialized payload, with the header
    Content-Type: application/json, under a client timeout of 10 seconds;
    it writes no log. It returns nil if and only if the round trip yields a
    response of status 204; for a response of any other status it returns
    an error whose text carries the status code and the response body; and
    when the round trip fails it returns the transport's error itself. *)
Theorem SendDiscordNotification_contract
  (c : NotifyConfig) (d : Discord) (w : World) (body : string) (u : http.URL) :
  json_Marshal d = Ok body ->
  url_Parse (WebhookURL c) = Ok u ->
  snd (SendDiscordNotification c d w)
  = {| World_log := World_log w;
       World_http := World_http w ++ [(webhook_client, webhook_request u body)] |}
  /\ time.Duration_String (http.Client_Timeout webhook_client) = "10s"
  /\ (fst (SendDiscordNotification c d w) = None
      <-> exists resp,
            http_RoundTrip webhook_client (webhook_request u body) = Ok resp
            /\ http.Response_StatusCode resp = 204)
  /\ (forall resp,
        http_RoundTrip webhook_client (webhook_request u body) = Ok resp ->
        http.Response_StatusCode resp <> 204 ->
        fst (SendDiscordNotification c d w)
        = Some (errors_New ("Error response from Discord ["
                              ++ itoa (http.Response_StatusCode resp) ++ "] - ["
                              ++ http.Response_Body resp ++ "]")))
  /\ (forall e,
        http_RoundTrip webhook_client (webhook_request u body) = Err e ->
        fst (SendDiscordNotification c d w) = Some e).
Proof.
  intros Hm Hu.
  rewrite (SendDiscordNotification_built c d w body u Hm Hu).
  cbn [fst snd].
  split; [reflexivity|]. split; [reflexivity|]. split; [|split].
  - unfold outcome.
    destruct (http_RoundTrip webhook_client (webhook_request u body)) as [resp|e].
    + destruct (http.Response_StatusCode resp =? 204) eqn:Hs.
      * apply Z.eqb_eq in Hs. split; [intros _|reflexivity].
        exists resp. split; [reflexivity | assumption].
      * apply Z.eqb_neq in Hs. split; [intros [=]|].
        intros (resp' & [= <-] & H204). contradiction.
    + split; [intros [=]|]. intros (resp & [=] & _).
  - intros resp Hr Hne. rewrite Hr. unfold outcome.
    apply Z.eqb_neq in Hne. now rewrite Hne.
  - intros e Hr. now rewrite Hr.
Qed.

(** C3. In dry-run mode, on a runtime whose JSON encoder accepts every
    payload (as encoding/json does for this struct), [Notify] and
    [NotifyStat] issue no HTTP request and write exactly one log entry, at
    info level, holding the JSON text of the payload. *)
Theorem dry_run_logs_payload_without_http
  (c : NotifyConfig) (result : probe.Result) (probers : list probe.Prober) (w : World) :
  (forall d, exists json, json_Marshal d = Ok json) ->
  Dry c = true ->
  (exists json,
     json_Marshal (NewDiscord c result) = Ok json
     /\ Notify c result w
        = (tt, {| World_log :=
                    World_log w
                      ++ [{| Entry_Level := InfoLevel;
                             Entry_Message := "[discord] Dry notify - " ++ json |}];
                  World_http := World_http w |}))
  /\ (exists json,
        json_Marshal (NewEmbeds c probers) = Ok json
        /\ NotifyStat c probers w
           = (tt, {| World_log :=
                       World_log w
                         ++ [{| Entry_Level := InfoLevel;
                                Entry_Message := "[discord] Dry notify - " ++ json |}];
                     World_http := World_http w |})).
Proof.
  intros Htotal Hdry. split.
  - destruct (Htotal (NewDiscord c result)) as [json Hj]. exists json. split; [assumption|].
    unfold Notify, DryNotify. rewrite Hdry, Hj.
    unfold log_Infof, write_log. now rewrite Sprintf_dry.
  - destruct (Htotal (NewEmbeds c probers)) as [json Hj]. exists json. split; [assumption|].
    unfold NotifyStat, DryNotifyStat. rewrite Hdry, Hj.
    unfold log_Infof, write_log. now rewrite Sprintf_dry.
Qed.

(** C6. When delivery fails, [Notify] and [NotifyStat] return normally
    after writing two error entries: first the delivery error, then the
    JSON text of the payload (in [NotifyStat] inside the text that [fmt]
    prints for the call's surplus operand), or, when the payload does not
    serialize, the payload as [%v] prints it. *)
Theorem delivery_failure_logged_not_raised
  (c : NotifyConfig) (result : probe.Result) (probers : list probe.Prober) (w : World) :
  Dry c = false ->
  (forall err w1,
     SendDiscordNotification c (NewDiscord c result) w = (Some err, w1) ->
     Notify c result w
     = (tt, {| World_log :=
                 World_log w
                   ++ [{| Entry_Level := ErrorLevel; Entry_Message := Error err |};
                       {| Entry_Level := ErrorLevel;
                          Entry_Message :=
                            diagnostic (NewDiscord c result)
                              (fun json => "Notify[discord] - " ++ json) |}];
               World_http := World_http w1 |}))
  /\ (forall err w1,
        SendDiscordNotification c (NewEmbeds c probers) w = (Some err, w1) ->
        NotifyStat c probers w
        = (tt, {| World_log :=
                    World_log w
                      ++ [{| Entry_Level := ErrorLevel; Entry_Message := Error err |};
                          {| Entry_Level := ErrorLevel;
                             Entry_Message :=
                               diagnostic (NewEmbeds c probers)
                                 (fun json =>
                                    "Notify[{" ++ WebhookURL c
                                      ++ " %!s(bool=false)}] - discord%!(EXTRA string="
                                      ++ json ++ ")") |}];
                  World_http := World_http w1 |})).
Proof.
  intros Hdry. split; intros err w1 H1.
  - pose proof (SendDiscordNotification_log c (NewDiscord c result) w) as L1.
    rewrite H1 in L1. cbn in L1.
    unfold Notify. rewrite Hdry. unfold bind at 1. rewrite H1.
    unfold bind, log_Errorf, write_log, diagnostic; cbn -[Sprintf NewDiscord fmt.fmtArg append].
    rewrite Sprintf_v_error, L1.
    destruct (json_Marshal (NewDiscord c result)); cbn -[Sprintf NewDiscord fmt.fmtArg].
    + now rewrite Sprintf_notify_s, <- app_assoc.
    + now rewrite Sprintf_notify_v, <- app_assoc.
  - pose proof (SendDiscordNotification_log c (NewEmbeds c probers) w) as L2.
    rewrite H1 in L2. cbn in L2.
    unfold NotifyStat. rewrite Hdry. unfold bind at 1. rewrite H1.
    unfold bind, log_Errorf, write_log, diagnostic; cbn -[Sprintf NewEmbeds fmt.fmtArg append].
    rewrite Sprintf_v_error, L2.
    destruct (json_Marshal (NewEmbeds c probers)); cbn -[Sprintf NewEmbeds fmt.fmtArg].
    + now rewrite Sprintf_notify_stat, Hdry, <- app_assoc.
    + now rewrite Sprintf_notify_v, <- app_assoc.
Qed.

(** A delivery that ends before a request exists: when the payload does not
    serialize, or the webhook URL does not parse, the error is returned and
    nothing is sent or logged. *)
Lemma SendDiscordNotification_not_built (c : NotifyConfig) (d : Discord) (w : World) :
  (forall e, json_Marshal d = Err e -> SendDiscordNotification c d w = (Some e, w))
  /\ (forall body e,
        json_Marshal d = Ok body -> url_Parse (WebhookURL c) = Err e ->
        SendDiscordNotification c d w = (Some e, w)).
Proof.
  unfold SendDiscordNotification, http_NewRequest. split.
  - intros e ->. reflexivity.
  - intros body e -> ->. reflexivity.
Qed.

(** A delivery that succeeds is confirmed in the log with the name and the
    endpoint of the probe. *)
Lemma Notify_success (c : NotifyConfig) (result : probe.Result) (w w1 : World) :
  Dry c = false ->
  SendDiscordNotification c (NewDiscord c result) w = (None, w1) ->
  Notify c result w
  = (tt, {| World_log :=
              World_log w
                ++ [{| Entry_Level := InfoLevel;
                       Entry_Message :=
                         "Sent the Discord notification for " ++ probe.Result_Name result
                           ++ " (" ++ probe.Result_Endpoint result ++ ")!" |}];
            World_http := World_http w1 |}).
Proof.
  intros Hdry H1.
  pose proof (SendDiscordNotification_log c (NewDiscord c result) w) as L1.
  rewrite H1 in L1. cbn in L1.
  unfold Notify. rewrite Hdry. unfold bind. rewrite H1.
  unfold log_Infof, write_log. rewrite L1.
  replace (Sprintf "Sent the Discord notification for %s (%s)!"
             [fmt.AString (probe.Result_Name result);
              fmt.AString (probe.Result_Endpoint result)])
    with ("Sent the Discord notification for " ++ probe.Result_Name result
            ++ " (" ++ probe.Result_Endpoint result ++ ")!"); [reflexivity|].
  unfold Sprintf, fmt.Sprintf; cbn. string_norm. reflexivity.
Qed.

End Delivery.

(** ** Rounding of durations *)

Lemma int64_small (z : Z) : minInt64 <= z <= maxInt64 -> int64 z = z.
Proof.
  unfold int64, minInt64, maxInt64. intros H.
  rewrite Z.mod_small; lia.
Qed.

Lemma uint64_small (z : Z) : 0 <= z < 2 ^ 64 -> uint64 z = z.
Proof. unfold uint64. intros H. now apply Z.mod_small. Qed.

Lemma Duration_Round_quot (d m : Z) :
  0 < m ->
  - (maxInt64 - m) <= d <= maxInt64 - m ->
  time.Duration_Round d m
  = m * Z.quot d m
    + (if 2 * Z.abs (Z.rem d m) <? m then 0 else if d <? 0 then - m else m).
Proof.
  intros Hm Hd.
  assert (Hmax : maxInt64 = 9223372036854775807) by reflexivity.
  assert (Hmin : minInt64 = -9223372036854775808) by reflexivity.
  assert (H64 : 2 ^ 64 = 18446744073709551616) by reflexivity.
  pose proof (Z.quot_rem' d m) as Hqr.
  unfold time.Duration_Round, time.lessThanHalf, time.minDuration, time.maxDuration.
  destruct (m <=? 0) eqn:E0; [lia|].
  destruct (d <? 0) eqn:Ed.
  - apply Z.ltb_lt in Ed.
    pose proof (Z.rem_bound_pos_neg d m Hm ltac:(lia)) as Hr.
    rewrite (int64_small (- Z.rem d m)) by lia.
    rewrite (uint64_small (- Z.rem d m)) by lia.
    rewrite (uint64_small m) by lia.
    rewrite (uint64_small (- Z.rem d m + - Z.rem d m)) by lia.
    rewrite (int64_small (d - m)) by lia.
    rewrite (int64_small (d - m + - Z.rem d m)) by lia.
    rewrite (int64_small (d + - Z.rem d m)) by lia.
    replace (2 * Z.abs (Z.rem d m)) with (- Z.rem d m + - Z.rem d m) by lia.
    destruct (- Z.rem d m + - Z.rem d m <? m) eqn:Eh; [lia|].
    destruct (d - m + - Z.rem d m <? d) eqn:E1; lia.
  - apply Z.ltb_ge in Ed.
    pose proof (Z.rem_bound_pos_pos d m Hm Ed) as Hr.
    rewrite (uint64_small (Z.rem d m)) by lia.
    rewrite (uint64_small m) by lia.
    rewrite (uint64_small (Z.rem d m + Z.rem d m)) by lia.
    rewrite (int64_small (d + m)) by lia.
    rewrite (int64_small (d + m - Z.rem d m)) by lia.
    rewrite (int64_small (d - Z.rem d m)) by lia.
    replace (2 * Z.abs (Z.rem d m)) with (Z.rem d m + Z.rem d m) by lia.
    destruct (Z.rem d m + Z.rem d m <? m) eqn:Eh; [lia|].
    destruct (d <? d + m - Z.rem d m) eqn:E1; lia.
Qed.

(** [Round] yields the nearest multiple of [m], the farther one from zero
    on a tie, as long as that multiple is an [int64]. *)
Lemma Duration_Round_nearest (d m : Z) :
  0 < m ->
  - (maxInt64 - m) <= d <= maxInt64 - m ->
  exists k,
    time.Duration_Round d m = k * m
    /\ 2 * Z.abs (d - k * m) <= m
    /\ (2 * Z.abs (d - k * m) = m -> Z.abs d < Z.abs (k * m)).
Proof.
  intros Hm Hd. rewrite Duration_Round_quot by assumption.
  pose proof (Z.quot_rem' d m) as Hqr.
  destruct (2 * Z.abs (Z.rem d m) <? m) eqn:Eh.
  - apply Z.ltb_lt in Eh. exists (Z.quot d m). split; [lia|]. split; lia.
  - apply Z.ltb_ge in Eh. destruct (d <? 0) eqn:Ed.
    + apply Z.ltb_lt in Ed.
      pose proof (Z.rem_bound_pos_neg d m Hm ltac:(lia)) as Hr.
      exists (Z.quot d m - 1). split; [lia|]. split; [lia|].
      intros _. 
      assert (Z.quot d m <= 0) by (apply Z.quot_le_upper_bound; lia || idtac).
      nia.
    + apply Z.ltb_ge in Ed.
      pose proof (Z.rem_bound_pos_pos d m Hm Ed) as Hr.
      exists (Z.quot d m + 1). split; [lia|]. split; [lia|].
      intros _. assert (0 <= Z.quot d m) by (apply Z.quot_pos; lia). nia.
Qed.

(** At the end of the range the nearest multiple is no [int64] and [Round]
    answers with the largest duration, which is no multiple of [m]. *)
Lemma Duration_Round_saturates :
  time.Duration_Round maxInt64 time.Millisecond = time.maxDuration
  /\ time.Duration_String (time.Duration_Round maxInt64 time.Millisecond)
     = "2562047h47m16.854775807s".
Proof. split; vm_compute; reflexivity. Qed.

Section Descriptions.

Context {P : probe.API} {G : Platform}.

Lemma Sprintf_embed_description
  (up down : time.Duration) (sla : float64) (total : Z) (stat when status message : string) :
  Sprintf
    ("**Availability**" ++ nl ++ ">" ++ tab ++ " **Up**:  `%s`  **Down** `%s`  -  **SLA**: `%.2f %%`"
       ++ nl ++ "**Probe Times**" ++ nl ++ ">" ++ tab ++ "**Total** : `%d` ( %s )"
       ++ nl ++ "**Lastest Probe**" ++ nl ++ ">" ++ tab ++ "%s | %s"
       ++ nl ++ ">" ++ tab ++ "`%s ` ")
    [Duration_arg up; Duration_arg down; fmt.AFloat64 sla; fmt.AInt "int64" total;
     fmt.AString stat; fmt.AString when; fmt.AString status; fmt.AString message]
  = "**Availability**" ++ nl ++ ">" ++ tab ++ " **Up**:  `" ++ time.Duration_String up
      ++ "`  **Down** `" ++ time.Duration_String down
      ++ "`  -  **SLA**: `" ++ strconv_FormatFloat sla "f" 2 ++ " %`"
      ++ nl ++ "**Probe Times**" ++ nl ++ ">" ++ tab ++ "**Total** : `" ++ itoa total
      ++ "` ( " ++ stat ++ " )"
      ++ nl ++ "**Lastest Probe**" ++ nl ++ ">" ++ tab ++ when ++ " | " ++ status
      ++ nl ++ ">" ++ tab ++ "`" ++ message ++ " ` ".
Proof.
  unfold Sprintf, fmt.Sprintf; cbn -[time.Duration_String itoa]. string_norm. reflexivity.
Qed.

(** C8. The round-trip time in the description of a single result is the
    multiple of a millisecond nearest to the measured one, and the uptime
    and downtime in the description of an aggregate embed are the
    multiples of a second nearest to the measured ones (for durations
    whose nearest multiple is an [int64], that is all but the last
    millisecond, or second, of the 292 years a [Duration] spans); a
    round-trip time of 1,234,567 ns is rendered as 1ms. *)
Theorem durations_rounded_in_descriptions (c : NotifyConfig) (result : probe.Result) :
  (Z.abs (probe.Result_RoundTripTime result) <= maxInt64 - time.Millisecond ->
   exists k,
     2 * Z.abs (probe.Result_RoundTripTime result - k * time.Millisecond) <= time.Millisecond
     /\ map Embed_Description (Embeds (NewDiscord c result))
        = [probe.Status_Emoji (probe.Result_Status result) ++ " "
             ++ probe.Result_Endpoint result ++ " - ⏱ "
             ++ time.Duration_String (k * time.Millisecond) ++ nl
             ++ "```" ++ probe.Result_Message result ++ "```"])
  /\ (Z.abs (probe.Stat_UpTime (probe.Result_Stat result)) <= maxInt64 - time.Second ->
      Z.abs (probe.Stat_DownTime (probe.Result_Stat result)) <= maxInt64 - time.Second ->
      exists ku kd,
        2 * Z.abs (probe.Stat_UpTime (probe.Result_Stat result) - ku * time.Second) <= time.Second
        /\ 2 * Z.abs (probe.Stat_DownTime (probe.Result_Stat result) - kd * time.Second)
           <= time.Second
        /\ Embed_Description (NewEmbed c result)
           = "**Availability**" ++ nl ++ ">" ++ tab
               ++ " **Up**:  `" ++ time.Duration_String (ku * time.Second)
               ++ "`  **Down** `" ++ time.Duration_String (kd * time.Second)
               ++ "`  -  **SLA**: `" ++ strconv_FormatFloat (probe.Result_SLA result) "f" 2
               ++ " %`" ++ nl ++ "**Probe Times**" ++ nl ++ ">" ++ tab ++ "**Total** : `"
               ++ itoa (probe.Stat_Total (probe.Result_Stat result)) ++ "` ( "
               ++ probe.StatStatusText (probe.Result_Stat result) probe.Makerdown ++ " )"
               ++ nl ++ "**Lastest Probe**" ++ nl ++ ">" ++ tab
               ++ Time_Format (time.Time_UTC (probe.Result_StartTime result))
                    (probe.Result_TimeFormat result)
               ++ " | "
               ++ (probe.Status_Emoji (probe.Result_Status result) ++ " "
                     ++ probe.Status_String (probe.Result_Status result))
               ++ nl ++ ">" ++ tab ++ "`" ++ probe.Result_Message result ++ " ` ")
  /\ time.Duration_Round 1234567 time.Millisecond = 1 * time.Millisecond
  /\ time.Duration_String (time.Duration_Round 1234567 time.Millisecond) = "1ms".
Proof.
  split; [intros Hrtt|split; [intros Hup Hdown|split; reflexivity]].
  - destruct (Duration_Round_nearest (probe.Result_RoundTripTime result) time.Millisecond)
      as (k & Hk & Hnear & _); [reflexivity | lia |].
    exists k. split; [exact Hnear|].
    unfold NewDiscord. cbn [Embeds map app Embed_Description].
    now rewrite Sprintf_description, Hk.
  - destruct (Duration_Round_nearest (probe.Stat_UpTime (probe.Result_Stat result)) time.Second)
      as (ku & Hku & Hnu & _); [reflexivity | lia |].
    destruct (Duration_Round_nearest (probe.Stat_DownTime (probe.Result_Stat result)) time.Second)
      as (kd & Hkd & Hnd & _); [reflexivity | lia |].
    exists ku, kd. split; [exact Hnu|]. split; [exact Hnd|].
    unfold NewEmbed. cbn [Embed_Description].
    now rewrite Sprintf_embed_description, Hku, Hkd.
Qed.

End Descriptions.

(** ** The civil calendar: from an instant to a date and back *)

Lemma uint64_int64 (z : Z) : uint64 (int64 z) = uint64 z.
Proof.
  unfold uint64, int64.
  rewrite Zminus_mod, Zmod_mod, <- Zminus_mod.
  f_equal. lia.
Qed.

Lemma int64_add_int64 (a b : Z) : int64 (int64 a + b) = int64 (a + b).
Proof.
  unfold int64. f_equal.
  replace ((a + 2 ^ 63) mod 2 ^ 64 - 2 ^ 63 + b + 2 ^ 63) with ((a + 2 ^ 63) mod 2 ^ 64 + b) by lia.
  rewrite Zplus_mod_idemp_l. f_equal. lia.
Qed.


Ltac month_cases m :=
  let H := fresh "Hcases" in
  assert (H : m = 0 \/ m = 1 \/ m = 2 \/ m = 3 \/ m = 4 \/ m = 5 \/ m = 6 \/ m = 7
              \/ m = 8 \/ m = 9 \/ m = 10 \/ m = 11) by lia;
  decompose [or] H; clear H; subst m.

Ltac eval_daysBefore :=
  repeat match goal with
    | |- context [time.daysBefore ?k] =>
        let v := eval vm_compute in (time.daysBefore k) in
        change (time.daysBefore k) with v
    | H : context [time.daysBefore ?k] |- _ =>
        let v := eval vm_compute in (time.daysBefore k) in
        change (time.daysBefore k) with v in H
    end.

(** The month a day of a non-leap year falls in, as [absDate] finds it:
    an estimate from months of 31 days, moved up by one when short. *)
Lemma month_of_day (dd : Z) :
  0 <= dd <= 364 ->
  exists m0,
    (if time.daysBefore (dd / 31 + 1) <=? dd
     then (dd / 31 + 1, time.daysBefore (dd / 31 + 1))
     else (dd / 31, time.daysBefore (dd / 31)))
    = (m0, time.daysBefore m0)
    /\ 0 <= m0 <= 11
    /\ time.daysBefore m0 <= dd < time.daysBefore (m0 + 1).
Proof.
  intros Hdd.
  remember (dd / 31) as q eqn:Eq.
  assert (Hq : 0 <= q <= 11 /\ 31 * q <= dd < 31 * q + 31)
    by (subst q; Z.div_mod_to_equations; lia).
  clear Eq. destruct Hq as [Hq Hq'].
  destruct (time.daysBefore (q + 1) <=? dd) eqn:E;
    [apply Z.leb_le in E; exists (q + 1) | apply Z.leb_gt in E; exists q];
    (split; [reflexivity|]);
    month_cases q; eval_daysBefore; lia.
Qed.

Lemma absDate_spec (A : Z) :
  dayLo * 86400 <= A < dayHi * 86400 ->
  exists year month day yday,
    time.absDate A = (year, month, day, yday)
    /\ 0 <= year <= 9999
    /\ 1 <= month <= 12
    /\ 1 <= day <= time.daysIn month year
    /\ time.daysSinceEpoch year + time.daysBefore (month - 1)
         + (if time.isLeap year && (time.March <=? month) then 1 else 0) + (day - 1)
       = A / time.secondsPerDay.
Proof.
  intros HA. unfold dayLo, dayHi in HA.
  unfold time.absDate.
  unfold time.secondsPerDay, time.secondsPerHour, time.secondsPerMinute,
    time.daysPer400Years, time.daysPer100Years, time.daysPer4Years, time.absoluteZeroYear.
  change (24 * (60 * 60)) with 86400.
  change (365 * 400 + 97) with 146097.
  change (365 * 100 + 24) with 36524.
  change (365 * 4 + 1) with 1461.
  assert (HD : 106751990353566 <= A / 86400 < 106751994005991)
    by (Z.div_mod_to_equations; lia).
  remember (A / 86400) as D eqn:ED. clear ED HA.
  cbv zeta.
  rewrite !Z.shiftr_div_pow2 by lia. change (2 ^ 2) with 4.
  remember (D / 146097) as n1 eqn:E1.
  remember (D - 146097 * n1) as d1 eqn:F1.
  remember (d1 / 36524) as n2r eqn:E2.
  remember (n2r - n2r / 4) as n2 eqn:G2.
  remember (d1 - 36524 * n2) as d2 eqn:F2.
  remember (d2 / 1461) as n3 eqn:E3.
  remember (d2 - 1461 * n3) as d3 eqn:F3.
  remember (d3 / 365) as n4r eqn:E4.
  remember (n4r - n4r / 4) as n4 eqn:G4.
  remember (d3 - 365 * n4) as yd eqn:F4.
  assert (B1 : 0 <= d1 < 146097) by (subst; Z.div_mod_to_equations; lia).
  assert (B2r : 0 <= n2r <= 4 /\ 36524 * n2r <= d1 < 36524 * n2r + 36524)
    by (subst n2r; Z.div_mod_to_equations; lia).
  assert (B2 : (n2 = n2r /\ n2r <= 3) \/ (n2 = 3 /\ n2r = 4))
    by (subst n2; Z.div_mod_to_equations; lia).
  assert (B3 : 0 <= n3 <= 24 /\ 1461 * n3 <= d2 < 1461 * n3 + 1461)
    by (subst n3 d2; Z.div_mod_to_equations; lia).
  assert (B4r : 0 <= n4r <= 4 /\ 365 * n4r <= d3 < 365 * n4r + 365)
    by (subst n4r d3; Z.div_mod_to_equations; lia).
  assert (B4 : (n4 = n4r /\ n4r <= 3) \/ (n4 = 3 /\ n4r = 4))
    by (subst n4; Z.div_mod_to_equations; lia).
  assert (Bn1 : 730692555 <= n1 <= 730692580)
    by (subst n1; Z.div_mod_to_equations; lia).
  remember (400 * n1 + 100 * n2 + 4 * n3 + n4) as y eqn:Ey.
  assert (By : 292277022399 <= y <= 292277032398).
  { subst y. lia. }
  assert (Byd : 0 <= yd <= 365) by lia.
  assert (Edse : 146097 * n1 + 36524 * n2 + 1461 * n3 + 365 * n4 = D - yd) by lia.
  rewrite (int64_small y) by (unfold minInt64, maxInt64; lia).
  rewrite (int64_small (y + -292277022399)) by (unfold minInt64, maxInt64; lia).
  remember (y + -292277022399) as Y eqn:EY.
  assert (BY : 0 <= Y <= 9999) by lia.
  assert (Hleap : time.isLeap Y = (n4 =? 3) && (negb (n3 =? 24) || (n2 =? 3))).
  { unfold time.isLeap.
    rewrite !Z.rem_mod_nonneg by lia.
    assert (R4 : Y mod 4 = (n4 + 1) mod 4) by (subst Y y; Z.div_mod_to_equations; lia).
    assert (R100 : Y mod 100 = (4 * n3 + n4 + 1) mod 100) by (subst Y y; Z.div_mod_to_equations; lia).
    assert (R400 : Y mod 400 = (100 * n2 + 4 * n3 + n4 + 1) mod 400) by (subst Y y; Z.div_mod_to_equations; lia).
    rewrite R4, R100, R400.
    assert (Hn4 : 0 <= n4 <= 3) by lia.
    assert (Hn2 : 0 <= n2 <= 3) by lia.
    destruct (n4 =? 3) eqn:T4; [apply Z.eqb_eq in T4 | apply Z.eqb_neq in T4].
    - rewrite T4. change ((3 + 1) mod 4) with 0. change (0 =? 0) with true. cbn [andb].
      destruct (n3 =? 24) eqn:T3; [apply Z.eqb_eq in T3 | apply Z.eqb_neq in T3].
      + rewrite T3. change ((4 * 24 + 3 + 1) mod 100) with 0. change (0 =? 0) with true.
        cbn [negb orb].
        destruct (n2 =? 3) eqn:T2; [apply Z.eqb_eq in T2 | apply Z.eqb_neq in T2].
        * rewrite T2. reflexivity.
        * apply Z.eqb_neq. Z.div_mod_to_equations; lia.
      + cbn [negb orb].
        replace ((4 * n3 + 3 + 1) mod 100 =? 0) with false; [reflexivity|].
        symmetry. apply Z.eqb_neq. Z.div_mod_to_equations; lia.
    - replace ((n4 + 1) mod 4 =? 0) with false; [reflexivity|].
      symmetry. apply Z.eqb_neq. Z.div_mod_to_equations; lia. }
  assert (Hyd : yd <= 364 \/ (yd = 365 /\ time.isLeap Y = true)).
  { rewrite Hleap.
    destruct (Z.eq_dec yd 365) as [e|ne]; [right; split; [assumption|] | left; lia].
    assert (n4 = 3 /\ n4r = 4) as [T4 T4r] by lia. rewrite T4.
    change (3 =? 3) with true. cbn [andb].
    destruct (n3 =? 24) eqn:T3; [apply Z.eqb_eq in T3 | reflexivity].
    cbn [negb orb]. apply Z.eqb_eq. lia. }
  assert (Hdse : time.daysSinceEpoch Y = D - yd).
  { unfold time.daysSinceEpoch, time.absoluteZeroYear, time.daysPer400Years,
      time.daysPer100Years, time.daysPer4Years.
    replace (Y - -292277022399) with y by lia.
    rewrite (uint64_small y) by lia.
    cbv zeta.
    assert (Q1 : y / 400 = n1) by (subst y; Z.div_mod_to_equations; lia).
    rewrite Q1.
    assert (Q2 : (y - 400 * n1) / 100 = n2) by (subst y; Z.div_mod_to_equations; lia).
    rewrite Q2.
    assert (Q3 : (y - 400 * n1 - 100 * n2) / 4 = n3) by (subst y; Z.div_mod_to_equations; lia).
    rewrite Q3. lia. }
  clear E1 F1 E2 G2 F2 E3 F3 E4 G4 F4 B1 B2r B2 B3 B4r B4 Bn1 Ey By Edse EY Hleap.
  clear n1 d1 n2r n2 d2 n3 d3 n4r n4 y.
  unfold time.daysIn, time.February, time.March.
  change (31 + 29 - 1) with 59.
  destruct (time.isLeap Y) eqn:L.
  - destruct (59 <? yd) eqn:C1; [apply Z.ltb_lt in C1 | apply Z.ltb_ge in C1].
    + destruct (month_of_day (yd - 1)) as (m0 & -> & Hm0 & Hin); [lia|].
      exists Y, (m0 + 1), (yd - 1 - time.daysBefore m0 + 1), yd.
      rewrite L, Hdse. replace (m0 + 1 - 1) with m0 by lia.
      split; [reflexivity|]. split; [assumption|]. split; [lia|].
      month_cases m0; eval_daysBefore; cbn; lia.
    + destruct (yd =? 59) eqn:C2; [apply Z.eqb_eq in C2 | apply Z.eqb_neq in C2].
      * exists Y, 2, 29, yd. rewrite L, Hdse.
        split; [reflexivity|]. split; [assumption|]. split; [lia|].
        eval_daysBefore. cbn. lia.
      * destruct (month_of_day yd) as (m0 & -> & Hm0 & Hin); [lia|].
        exists Y, (m0 + 1), (yd - time.daysBefore m0 + 1), yd.
        rewrite L, Hdse. replace (m0 + 1 - 1) with m0 by lia.
        split; [reflexivity|]. split; [assumption|]. split; [lia|].
        month_cases m0; eval_daysBefore; cbn; lia.
  - destruct Hyd as [Hyd|[_ Hyd]]; [|discriminate].
    destruct (month_of_day yd) as (m0 & -> & Hm0 & Hin); [lia|].
    exists Y, (m0 + 1), (yd - time.daysBefore m0 + 1), yd.
    rewrite L, Hdse. replace (m0 + 1 - 1) with m0 by lia.
    rewrite !andb_false_r. cbn [andb].
    split; [reflexivity|]. split; [assumption|]. split; [lia|].
    split; lia.
Qed.

Lemma absClock_spec (A : Z) :
  0 <= A ->
  exists hour min sec,
    time.absClock A = (hour, min, sec)
    /\ 0 <= hour <= 23 /\ 0 <= min <= 59 /\ 0 <= sec <= 59
    /\ hour * 3600 + min * 60 + sec = A mod 86400.
Proof.
  intros HA. unfold time.absClock, time.secondsPerDay, time.secondsPerHour, time.secondsPerMinute.
  change (24 * (60 * 60)) with 86400. change (60 * 60) with 3600.
  cbv zeta. do 3 eexists. split; [reflexivity|].
  remember (A mod 86400) as r eqn:Er.
  assert (Hr : 0 <= r < 86400) by (subst r; apply Z.mod_pos_bound; lia).
  clear Er. Z.div_mod_to_equations. lia.
Qed.

Lemma norm_id (hi lo base : Z) : 0 <= lo < base -> time.norm hi lo base = (hi, lo).
Proof.
  intros H. unfold time.norm.
  destruct (lo <? 0) eqn:E1; [apply Z.ltb_lt in E1; lia|].
  destruct (base <=? lo) eqn:E2; [apply Z.leb_le in E2; lia|]. reflexivity.
Qed.

(** [Date] gives back the instant whose date and clock it is handed. *)
Lemma Date_UTC_inverse (year month day hour min sec D r : Z) :
  1 <= month <= 12 -> 0 <= hour <= 23 -> 0 <= min <= 59 -> 0 <= sec <= 59 ->
  time.daysSinceEpoch year + time.daysBefore (month - 1)
    + (if time.isLeap year && (time.March <=? month) then 1 else 0) + (day - 1) = D ->
  hour * 3600 + min * 60 + sec = r ->
  dayLo <= D < dayHi ->
  time.Date_UTC year month day hour min sec 0
  = {| time.unixSec := D * 86400 + r - (time.unixToInternal + time.internalToAbsolute);
       time.nsec := 0;
       time.loc := time.UTC |}.
Proof.
  intros Hmo Hh Hmi Hs HD Hr HDr. unfold dayLo, dayHi in HDr.
  unfold time.Date_UTC.
  rewrite (norm_id year (month - 1) 12) by lia.
  rewrite (norm_id sec 0 1000000000) by lia.
  rewrite (norm_id min sec 60) by lia.
  rewrite (norm_id hour min 60) by lia.
  rewrite (norm_id day hour 24) by lia.
  replace (month - 1 + 1) with month by lia.
  replace (month - 1 + 1 - 1) with (month - 1) by lia.
  cbv zeta.
  assert (Ed : (if time.isLeap year && (time.March <=? month)
                then time.daysSinceEpoch year + time.daysBefore (month - 1) + 1
                else time.daysSinceEpoch year + time.daysBefore (month - 1)) + (day - 1) = D)
    by (destruct (time.isLeap year && (time.March <=? month)); lia).
  rewrite Ed.
  unfold time.secondsPerDay, time.secondsPerHour, time.secondsPerMinute.
  change (24 * (60 * 60)) with 86400. change (60 * 60) with 3600.
  rewrite Hr.
  assert (H64 : 2 ^ 64 = 18446744073709551616) by reflexivity.
  rewrite (uint64_small (D * 86400)) by lia.
  rewrite (uint64_small (D * 86400 + r)) by lia.
  rewrite int64_add_int64.
  rewrite int64_small.
  - f_equal; unfold time.absoluteToInternal, time.internalToUnix, time.internalToAbsolute; lia.
  - unfold minInt64, maxInt64.
    change (time.absoluteToInternal + time.internalToUnix) with (-9223372028715321600). lia.
Qed.

(** *** Digits *)

Lemma digitChar_code (n : Z) :
  0 <= n <= 9 -> Z.of_N (N_of_ascii (digitChar n)) = 48 + n.
Proof.
  intros H. unfold digitChar.
  rewrite N_ascii_embedding by lia.
  apply Z2N.id. lia.
Qed.

Lemma digitChar_isDigit (n : Z) : 0 <= n <= 9 -> isDigit (digitChar n) = true.
Proof.
  intros H. unfold isDigit. rewrite digitChar_code by assumption.
  apply andb_true_intro. split; apply Z.leb_le; lia.
Qed.

Lemma digitChar_digitVal (n : Z) : 0 <= n <= 9 -> digitVal (digitChar n) = n.
Proof. intros H. unfold digitVal. rewrite digitChar_code by assumption. lia. Qed.

Lemma fmtDigits_last (fuel : nat) (v : Z) (acc : string) :
  0 <= v < 10 -> fmtDigits fuel v acc = String (digitChar v) acc.
Proof.
  intros H.
  assert (E : v / 10 = 0) by (Z.div_mod_to_equations; lia).
  assert (E' : v mod 10 = v) by (Z.div_mod_to_equations; lia).
  destruct fuel; cbn [fmtDigits]; rewrite E', ?E; reflexivity.
Qed.

Lemma fmtDigits_step (fuel : nat) (v : Z) (acc : string) :
  10 <= v ->
  fmtDigits (S fuel) v acc = fmtDigits fuel (v / 10) (String (digitChar (v mod 10)) acc).
Proof.
  intros H. cbn [fmtDigits].
  destruct (v / 10 =? 0) eqn:E; [|reflexivity].
  apply Z.eqb_eq in E. Z.div_mod_to_equations. lia.
Qed.

(** A number of k+1 decimal digits has at least 3k binary digits. *)
Lemma log2_fuel (v lo : Z) (k : nat) :
  0 < lo <= v -> (k <= Z.to_nat (Z.log2 lo))%nat -> exists f, Z.to_nat (Z.log2 v) = (k + f)%nat.
Proof.
  intros H Hk.
  assert (Z.log2 lo <= Z.log2 v) by (apply Z.log2_le_mono; lia).
  exists (Z.to_nat (Z.log2 v) - k)%nat. lia.
Qed.

Lemma appendInt_2 (v : Z) :
  0 <= v <= 99 ->
  time.appendInt v 2 = String (digitChar (v / 10)) (String (digitChar (v mod 10)) "").
Proof.
  intros H. unfold time.appendInt.
  destruct (v <? 0) eqn:E; [apply Z.ltb_lt in E; lia|].
  rewrite uint64_small by (change (2 ^ 64) with 18446744073709551616; lia).
  unfold fmtInt.
  destruct (Z_lt_le_dec v 10) as [Hs|Hl].
  - rewrite fmtDigits_last by lia.
    replace (v / 10) with 0 by (Z.div_mod_to_equations; lia).
    replace (v mod 10) with v by (Z.div_mod_to_equations; lia).
    reflexivity.
  - destruct (log2_fuel v 10 1) as (f & ->); [lia | cbn; lia |].
    cbn [Nat.add]. rewrite fmtDigits_step by lia.
    rewrite fmtDigits_last by (Z.div_mod_to_equations; lia).
    reflexivity.
Qed.

Lemma appendInt_4 (v : Z) :
  0 <= v <= 9999 ->
  time.appendInt v 4
  = String (digitChar (v / 1000))
      (String (digitChar (v / 100 mod 10))
         (String (digitChar (v / 10 mod 10)) (String (digitChar (v mod 10)) ""))).
Proof.
  intros H. unfold time.appendInt.
  destruct (v <? 0) eqn:E; [apply Z.ltb_lt in E; lia|].
  rewrite uint64_small by (change (2 ^ 64) with 18446744073709551616; lia).
  unfold fmtInt.
  destruct (Z_lt_le_dec v 10) as [H1|H1].
  - rewrite fmtDigits_last by lia.
    replace (v / 1000) with 0 by (Z.div_mod_to_equations; lia).
    replace (v / 100 mod 10) with 0 by (Z.div_mod_to_equations; lia).
    replace (v / 10 mod 10) with 0 by (Z.div_mod_to_equations; lia).
    replace (v mod 10) with v by (Z.div_mod_to_equations; lia).
    reflexivity.
  - destruct (Z_lt_le_dec v 100) as [H2|H2].
    + destruct (log2_fuel v 10 1) as (f & ->); [lia | cbn; lia |].
      cbn [Nat.add]. rewrite fmtDigits_step by lia.
      rewrite fmtDigits_last by (Z.div_mod_to_equations; lia).
      replace (v / 1000) with 0 by (Z.div_mod_to_equations; lia).
      replace (v / 100 mod 10) with 0 by (Z.div_mod_to_equations; lia).
      replace (v / 10 mod 10) with (v / 10) by (Z.div_mod_to_equations; lia).
      reflexivity.
    + destruct (Z_lt_le_dec v 1000) as [H3|H3].
      * destruct (log2_fuel v 100 2) as (f & ->); [lia | cbn; lia |].
        cbn [Nat.add]. rewrite fmtDigits_step by lia.
        rewrite fmtDigits_step by (Z.div_mod_to_equations; lia).
        rewrite fmtDigits_last by (Z.div_mod_to_equations; lia).
        replace (v / 1000) with 0 by (Z.div_mod_to_equations; lia).
        replace (v / 100 mod 10) with (v / 10 / 10) by (Z.div_mod_to_equations; lia).
        reflexivity.
      * destruct (log2_fuel v 1000 3) as (f & ->); [lia | cbn; lia |].
        cbn [Nat.add]. rewrite fmtDigits_step by lia.
        rewrite fmtDigits_step by (Z.div_mod_to_equations; lia).
        rewrite fmtDigits_step by (Z.div_mod_to_equations; lia).
        rewrite fmtDigits_last by (Z.div_mod_to_equations; lia).
        replace (v / 10 / 10 / 10) with (v / 1000) by (Z.div_mod_to_equations; lia).
        replace (v / 10 / 10 mod 10) with (v / 100 mod 10) by (Z.div_mod_to_equations; lia).
        reflexivity.
Qed.

Lemma parseUint_2 (v lo hi : Z) :
  0 <= v <= 99 -> lo <= v <= hi ->
  time.parseUint (String (digitChar (v / 10)) (String (digitChar (v mod 10)) "")) lo hi
  = Some v.
Proof.
  intros H Hr. unfold time.parseUint. cbn [time.atoiDigits].
  assert (0 <= v / 10 <= 9 /\ 0 <= v mod 10 <= 9) as [Ha Hb]
    by (Z.div_mod_to_equations; lia).
  rewrite !digitChar_isDigit, !digitChar_digitVal by assumption.
  replace ((0 * 10 + v / 10) * 10 + v mod 10) with v by (Z.div_mod_to_equations; lia).
  destruct (v <? lo) eqn:E1; [apply Z.ltb_lt in E1; lia|].
  destruct (hi <? v) eqn:E2; [apply Z.ltb_lt in E2; lia|]. reflexivity.
Qed.

Lemma parseUint_4 (v lo hi : Z) :
  0 <= v <= 9999 -> lo <= v <= hi ->
  time.parseUint
    (String (digitChar (v / 1000))
       (String (digitChar (v / 100 mod 10))
          (String (digitChar (v / 10 mod 10)) (String (digitChar (v mod 10)) "")))) lo hi
  = Some v.
Proof.
  intros H Hr. unfold time.parseUint. cbn [time.atoiDigits].
  assert (0 <= v / 1000 <= 9 /\ 0 <= v / 100 mod 10 <= 9
          /\ 0 <= v / 10 mod 10 <= 9 /\ 0 <= v mod 10 <= 9) as (Ha & Hb & Hc & Hd)
    by (Z.div_mod_to_equations; lia).
  rewrite !digitChar_isDigit, !digitChar_digitVal by assumption.
  replace ((((0 * 10 + v / 1000) * 10 + v / 100 mod 10) * 10 + v / 10 mod 10) * 10 + v mod 10)
    with v by (Z.div_mod_to_equations; lia).
  destruct (v <? lo) eqn:E1; [apply Z.ltb_lt in E1; lia|].
  destruct (hi <? v) eqn:E2; [apply Z.ltb_lt in E2; lia|]. reflexivity.
Qed.

(** *** Parsing what [Format] wrote *)

Lemma parseRFC3339_UTC_shape
  (y3 y2 y1 y0 mo1 mo0 d1 d0 h1 h0 mi1 mi0 s1 s0 : ascii) (local : time.Location) :
  time.parseRFC3339
    (String y3 (String y2 (String y1 (String y0 (String "-"
      (String mo1 (String mo0 (String "-"
        (String d1 (String d0 (String "T"
          (String h1 (String h0 (String ":"
            (String mi1 (String mi0 (String ":"
              (String s1 (String s0 "Z"))))))))))))))))))) local
  = match time.parseUint (String y3 (String y2 (String y1 (String y0 ""))) ) 0 9999,
          time.parseUint (String mo1 (String mo0 "")) 1 12 with
    | Some year, Some month =>
        match time.parseUint (String d1 (String d0 "")) 1 (time.daysIn month year),
              time.parseUint (String h1 (String h0 "")) 0 23,
              time.parseUint (String mi1 (String mi0 "")) 0 59,
              time.parseUint (String s1 (String s0 "")) 0 59 with
        | Some day, Some hour, Some min, Some sec =>
            Some (time.Date_UTC year month day hour min sec 0)
        | _, _, _, _ => None
        end
    | _, _ => None
    end.
Proof.
  unfold time.parseRFC3339.
  cbn [String.length Nat.ltb Nat.leb time.slice substring Nat.sub].
  destruct (time.parseUint _ 0 9999) as [year|]; [|reflexivity].
  destruct (time.parseUint _ 1 12) as [month|]; [|reflexivity].
  destruct (time.parseUint _ 1 (time.daysIn month year)) as [day|]; [|reflexivity].
  destruct (time.parseUint _ 0 23) as [hour|]; [|reflexivity].
  destruct (time.parseUint _ 0 59) as [min|]; [|reflexivity].
  destruct (time.parseUint _ 0 59) as [sec|]; [|reflexivity].
  reflexivity.
Qed.

Lemma daysIn_le_31 (month year : Z) : 1 <= month <= 12 -> time.daysIn month year <= 31.
Proof.
  intros H. unfold time.daysIn.
  destruct ((month =? time.February) && time.isLeap year); [lia|].
  assert (C : month = 1 \/ month = 2 \/ month = 3 \/ month = 4 \/ month = 5 \/ month = 6
              \/ month = 7 \/ month = 8 \/ month = 9 \/ month = 10 \/ month = 11
              \/ month = 12) by lia.
  decompose [or] C; subst month; eval_daysBefore; lia.
Qed.

Lemma Time_abs_UTC (s n : Z) :
  -62167219200 <= s < 253402300800 ->
  time.Time_abs {| time.unixSec := s; time.nsec := n; time.loc := time.UTC |}
  = s + 9223372028715321600.
Proof.
  intros H. unfold time.Time_abs.
  cbn [time.unixSec time.loc time.Location_lookup time.UTC].
  rewrite Z.add_0_r.
  rewrite (int64_small s) by (unfold minInt64, maxInt64; lia).
  rewrite uint64_int64.
  change (time.unixToInternal + time.internalToAbsolute) with 9223372028715321600.
  apply uint64_small. change (2 ^ 64) with 18446744073709551616. lia.
Qed.

(** Formatting an instant of the years 0 to 9999 in UTC and parsing the
    text gives the instant's whole second back. *)
Lemma parse_format_RFC3339_UTC (s n : Z) (local : time.Location) :
  -62167219200 <= s < 253402300800 ->
  time.parseRFC3339
    (time.Time_Format_RFC3339 {| time.unixSec := s; time.nsec := n; time.loc := time.UTC |})
    local
  = Some {| time.unixSec := s; time.nsec := 0; time.loc := time.UTC |}.
Proof.
  intros H. unfold time.Time_Format_RFC3339.
  rewrite Time_abs_UTC by assumption.
  cbn [time.unixSec time.loc time.Location_lookup time.UTC].
  change (0 =? 0) with true. cbv iota.
  set (A := s + 9223372028715321600).
  destruct (absDate_spec A) as (year & month & day & yday & -> & Hy & Hmo & Hd & Hdays);
    [unfold dayLo, dayHi; subst A; lia|].
  destruct (absClock_spec A) as (hour & min & sec & -> & Hh & Hmi & Hs & Hclock);
    [subst A; lia|].
  pose proof (daysIn_le_31 month year Hmo) as H31.
  rewrite appendInt_4 by assumption.
  rewrite !appendInt_2 by lia.
  cbn [append].
  rewrite parseRFC3339_UTC_shape.
  rewrite parseUint_4 by lia.
  rewrite (parseUint_2 month) by lia.
  rewrite (parseUint_2 day) by lia.
  rewrite (parseUint_2 hour) by lia.
  rewrite (parseUint_2 min) by lia.
  rewrite (parseUint_2 sec) by lia.
  rewrite (Date_UTC_inverse year month day hour min sec
             (A / time.secondsPerDay) (A mod 86400)); try assumption.
  - do 2 f_equal. change (time.unixToInternal + time.internalToAbsolute) with 9223372028715321600.
    unfold time.secondsPerDay, time.secondsPerHour, time.secondsPerMinute.
    change (24 * (60 * 60)) with 86400.
    subst A. Z.div_mod_to_equations. lia.
  - unfold dayLo, dayHi, time.secondsPerDay, time.secondsPerHour, time.secondsPerMinute.
    change (24 * (60 * 60)) with 86400.
    subst A. Z.div_mod_to_equations. lia.
Qed.

Section Timestamp.

Context {P : probe.API} {G : Platform}.


End Timestamp.

(** * The theorems at concrete inputs *)



(** C2 on a network that answers 204: the delivery of the payload of
    [demo_result] returns nil. *)
Lemma SendDiscordNotification_contract_witness :
  fst (SendDiscordNotification (G := demo_Platform answer_204) demo_config
         (NewDiscord (P := demo_API) (G := demo_Platform answer_204) demo_config demo_result)
         World_empty)
  = None.
Proof.
  destruct (SendDiscordNotification_contract (G := demo_Platform answer_204) demo_config
              (NewDiscord (P := demo_API) (G := demo_Platform answer_204) demo_config demo_result)
              World_empty _ _ eq_refl eq_refl)
    as (_ & _ & H & _).
  apply H. eexists. split; reflexivity.
Defined.

(** C3 with the encoder of the model, which accepts every payload. *)
Lemma dry_run_logs_payload_without_http_witness :
  World_http
    (snd (Notify (P := demo_API) (G := demo_Platform answer_204) demo_dry_config demo_result
            World_empty))
  = []
  /\ World_http
       (snd (NotifyStat (P := demo_API) (G := demo_Platform answer_204) demo_dry_config
               [demo_prober; demo_prober] World_empty))
     = [].
Proof.
  destruct (dry_run_logs_payload_without_http
              (P := demo_API) (G := demo_Platform answer_204) demo_dry_config demo_result
              [demo_prober; demo_prober] World_empty)
    as ((j1 & _ & H1) & (j2 & _ & H2)).
  - intros d. eexists. reflexivity.
  - reflexivity.
  - rewrite H1, H2. split; reflexivity.
Defined.

(** C6 on a network that answers 500, with an encoder that accepts the
    payload and with one that refuses it. *)
Lemma delivery_failure_logged_not_raised_witness :
  map Entry_Level
    (World_log
       (snd (Notify (P := demo_API) (G := demo_Platform answer_500) demo_config demo_result
               World_empty)))
  = [ErrorLevel; ErrorLevel]
  /\ map Entry_Level
       (World_log
          (snd (NotifyStat (P := demo_API) (G := refusing_Platform answer_500) demo_config
                  [demo_prober] World_empty)))
     = [ErrorLevel; ErrorLevel].
Proof.
  split.
  - destruct (delivery_failure_logged_not_raised
                (P := demo_API) (G := demo_Platform answer_500) demo_config demo_result
                [demo_prober] World_empty eq_refl) as (H & _).
    rewrite (H _ _ eq_refl). reflexivity.
  - destruct (delivery_failure_logged_not_raised
                (P := demo_API) (G := refusing_Platform answer_500) demo_config demo_result
                [demo_prober] World_empty eq_refl) as (_ & H).
    rewrite (H _ _ eq_refl). reflexivity.
Defined.

(** C8 at [demo_result], whose round trip took 1,234,567 ns. *)
Lemma durations_rounded_in_descriptions_witness :
  exists k,
    2 * Z.abs (1234567 - k * time.Millisecond) <= time.Millisecond
    /\ map Embed_Description
         (Embeds (NewDiscord (P := demo_API) (G := demo_Platform answer_204)
                    demo_config demo_result))
       = ["✅ https://example.com - ⏱ " ++ time.Duration_String (k * time.Millisecond)
            ++ nl ++ "```ok```"].
Proof.
  destruct (durations_rounded_in_descriptions
              (P := demo_API) (G := demo_Platform answer_204) demo_config demo_result)
    as (H & _).
  destruct H as (k & Hk & Hd).
  - cbn. unfold maxInt64. lia.
  - exists k. split; [exact Hk | exact Hd].
Defined.

(** The confirmation of a delivery, on a network that answers 204. *)
Lemma Notify_success_witness :
  map Entry_Message
    (World_log
       (snd (Notify (P := demo_API) (G := demo_Platform answer_204) demo_config demo_result
               World_empty)))
  = ["Sent the Discord notification for web (https://example.com)!"].
Proof.
  rewrite (Notify_success (P := demo_API) (G := demo_Platform answer_204) demo_config
             demo_result World_empty _ eq_refl eq_refl).
  reflexivity.
Defined.

(** * More of the notifier: whole calls, frames and edge cases *)

Section Calls.

Context {P : probe.API} {G : Platform}.

Lemma Sprintf_sent (name endpoint : string) :
  Sprintf "Sent the Discord notification for %s (%s)!" [fmt.AString name; fmt.AString endpoint]
  = "Sent the Discord notification for " ++ name ++ " (" ++ endpoint ++ ")!".
Proof. unfold Sprintf, fmt.Sprintf; cbn. string_norm. reflexivity. Qed.

Lemma Sprintf_error_v (e : error) :
  Sprintf "error : %v" [error_arg e] = "error : " ++ Error e.
Proof. unfold Sprintf, fmt.Sprintf; cbn. string_norm. reflexivity. Qed.

Lemma Sprintf_dry_mode (k : string) :
  Sprintf "Notification %s is running on Dry mode!" [fmt.AString k]
  = "Notification " ++ k ++ " is running on Dry mode!".
Proof. unfold Sprintf, fmt.Sprintf; cbn. string_norm. reflexivity. Qed.

(** A live [Notify] whose request could be built, from end to end. *)
Lemma Notify_built
  (c : NotifyConfig) (result : probe.Result) (w : World) (json : string) (u : http.URL) :
  Dry c = false ->
  json_Marshal (NewDiscord c result) = Ok json ->
  url_Parse (WebhookURL c) = Ok u ->
  Notify c result w
  = (tt, {| World_log :=
              World_log w
                ++ Notify_entries result json
                     (outcome (http_RoundTrip webhook_client (webhook_request u json)));
            World_http := World_http w ++ [(webhook_client, webhook_request u json)] |}).
Proof.
  intros Hdry Hm Hu. unfold Notify. rewrite Hdry. unfold bind at 1.
  rewrite (SendDiscordNotification_built c _ w json u Hm Hu).
  destruct (outcome _) as [e|]; unfold Notify_entries.
  - unfold bind, log_Errorf, write_log. rewrite Hm. cbn -[Sprintf NewDiscord append].
    now rewrite Sprintf_v_error, Sprintf_notify_s, <- app_assoc.
  - unfold log_Infof, write_log. cbn -[Sprintf NewDiscord append].
    now rewrite Sprintf_sent.
Qed.

(** X3. A live [Notify] whose delivery fails after the request went out
    (a response other than 204, or a transport error) has posted exactly
    one request and writes two error entries: the delivery error, then the
    very JSON text that it posted. *)
Theorem Notify_failed_delivery_logs_posted_body
  (c : NotifyConfig) (result : probe.Result) (w : World) (json : string) (u : http.URL) :
  Dry c = false ->
  json_Marshal (NewDiscord c result) = Ok json ->
  url_Parse (WebhookURL c) = Ok u ->
  (forall resp,
     http_RoundTrip webhook_client (webhook_request u json) = Ok resp ->
     http.Response_StatusCode resp <> 204 ->
     Notify c result w
     = (tt, {| World_log :=
                 World_log w
                   ++ [{| Entry_Level := ErrorLevel;
                          Entry_Message :=
                            "Error response from Discord ["
                              ++ itoa (http.Response_StatusCode resp) ++ "] - ["
                              ++ http.Response_Body resp ++ "]" |};
                       {| Entry_Level := ErrorLevel;
                          Entry_Message :=
                            "Notify[discord] - "
                              ++ http.Request_Body (webhook_request u json) |}];
               World_http := World_http w ++ [(webhook_client, webhook_request u json)] |}))
  /\ (forall e,
        http_RoundTrip webhook_client (webhook_request u json) = Err e ->
        Notify c result w
        = (tt, {| World_log :=
                    World_log w
                      ++ [{| Entry_Level := ErrorLevel; Entry_Message := Error e |};
                          {| Entry_Level := ErrorLevel;
                             Entry_Message :=
                               "Notify[discord] - "
                                 ++ http.Request_Body (webhook_request u json) |}];
                  World_http := World_http w ++ [(webhook_client, webhook_request u json)] |})).
Proof.
  intros Hdry Hm Hu. rewrite (Notify_built c result w json u Hdry Hm Hu). split.
  - intros resp -> Hne. unfold outcome.
    apply Z.eqb_neq in Hne. rewrite Hne. reflexivity.
  - intros e ->. reflexivity.
Qed.

(** X4. A live [Notify] whose request could be built writes the line
    "Sent the Discord notification for name (endpoint)!" if and only if the
    response had status 204; in that case it is the only entry written. *)
Theorem Notify_confirms_iff_204
  (c : NotifyConfig) (result : probe.Result) (w : World) (json : string) (u : http.URL) :
  Dry c = false ->
  json_Marshal (NewDiscord c result) = Ok json ->
  url_Parse (WebhookURL c) = Ok u ->
  (World_log (snd (Notify c result w))
   = (World_log w
        ++ [{| Entry_Level := InfoLevel;
               Entry_Message :=
                 "Sent the Discord notification for " ++ probe.Result_Name result
                   ++ " (" ++ probe.Result_Endpoint result ++ ")!" |}])%list)
  <-> exists resp,
        http_RoundTrip webhook_client (webhook_request u json) = Ok resp
        /\ http.Response_StatusCode resp = 204.
Proof.
  intros Hdry Hm Hu. rewrite (Notify_built c result w json u Hdry Hm Hu).
  cbn [snd World_log]. unfold outcome.
  destruct (http_RoundTrip webhook_client (webhook_request u json)) as [resp|e].
  - destruct (http.Response_StatusCode resp =? 204) eqn:Hs.
    + apply Z.eqb_eq in Hs. split; [intros _|reflexivity].
      exists resp. split; [reflexivity | assumption].
    + apply Z.eqb_neq in Hs. split.
      * intros H. apply app_inv_head in H. discriminate.
      * intros (resp' & [= <-] & H204). contradiction.
  - split.
    + intros H. apply app_inv_head in H. discriminate.
    + intros (resp & [=] & _).
Qed.

(** X5. A dry run previews the delivery: the JSON text that [Notify] logs
    under a dry configuration is the body that it posts, for the same
    result, under a live one. *)
Theorem dry_run_previews_posted_body
  (c c' : NotifyConfig) (result : probe.Result) (w : World) (json : string) (u : http.URL) :
  Dry c = true ->
  Dry c' = false ->
  json_Marshal (NewDiscord c result) = Ok json ->
  url_Parse (WebhookURL c') = Ok u ->
  World_log (snd (Notify c result w))
  = (World_log w
       ++ [{| Entry_Level := InfoLevel;
              Entry_Message := "[discord] Dry notify - " ++ json |}])%list
  /\ World_http (snd (Notify c' result w))
     = (World_http w ++ [(webhook_client, webhook_request u json)])%list
  /\ http.Request_Body (webhook_request u json) = json.
Proof.
  intros Hdry Hlive Hm Hu. split; [|split; [|reflexivity]].
  - unfold Notify, DryNotify. rewrite Hdry, Hm.
    unfold log_Infof, write_log. cbn [snd World_log]. now rewrite Sprintf_dry.
  - change (NewDiscord c result) with (NewDiscord c' result) in Hm.
    now rewrite (Notify_built c' result w json u Hlive Hm Hu).
Qed.

(** X6. A live [Notify] whose webhook URL does not parse sends nothing; it
    logs the parser's error and then the JSON text of the payload. *)
Theorem Notify_unparsable_URL
  (c : NotifyConfig) (result : probe.Result) (w : World) (json : string) (e : error) :
  Dry c = false ->
  json_Marshal (NewDiscord c result) = Ok json ->
  url_Parse (WebhookURL c) = Err e ->
  Notify c result w
  = (tt, {| World_log :=
              World_log w
                ++ [{| Entry_Level := ErrorLevel; Entry_Message := Error e |};
                    {| Entry_Level := ErrorLevel;
                       Entry_Message := "Notify[discord] - " ++ json |}];
            World_http := World_http w |}).
Proof.
  intros Hdry Hm Hu. unfold Notify. rewrite Hdry.
  unfold bind at 1. unfold SendDiscordNotification, http_NewRequest. rewrite Hm, Hu.
  unfold ret, bind, log_Errorf, write_log. rewrite ?Hm. cbn -[Sprintf NewDiscord append].
  now rewrite Sprintf_v_error, Sprintf_notify_s, <- app_assoc.
Qed.

(** X7. A live [NotifyStat] whose delivery succeeds writes one info entry,
    "Sent the Statstics to Slack Successfully!", and nothing else. *)
Theorem NotifyStat_success
  (c : NotifyConfig) (probers : list probe.Prober) (w w1 : World) :
  Dry c = false ->
  SendDiscordNotification c (NewEmbeds c probers) w = (None, w1) ->
  NotifyStat c probers w
  = (tt, {| World_log :=
              World_log w
                ++ [{| Entry_Level := InfoLevel;
                       Entry_Message := "Sent the Statstics to Slack Successfully!" |}];
            World_http := World_http w1 |}).
Proof.
  intros Hdry H1.
  pose proof (SendDiscordNotification_log c (NewEmbeds c probers) w) as L1.
  rewrite H1 in L1. cbn in L1.
  unfold NotifyStat. rewrite Hdry. unfold bind. rewrite H1.
  unfold log_Infoln, write_log. rewrite L1. reflexivity.
Qed.

(** X8. In dry-run mode no request is ever issued, whatever the encoder
    does: [Notify] and [NotifyStat] leave the network untouched and write
    exactly one entry, and when the encoder refuses the payload that entry
    is the error, at error level. *)
Theorem dry_run_never_sends
  (c : NotifyConfig) (result : probe.Result) (probers : list probe.Prober) (w : World) :
  Dry c = true ->
  (World_http (snd (Notify c result w)) = World_http w
   /\ World_http (snd (NotifyStat c probers w)) = World_http w)
  /\ (exists entry, World_log (snd (Notify c result w)) = (World_log w ++ [entry])%list)
  /\ (exists entry, World_log (snd (NotifyStat c probers w)) = (World_log w ++ [entry])%list)
  /\ (forall e,
        json_Marshal (NewDiscord c result) = Err e ->
        World_log (snd (Notify c result w))
        = (World_log w
             ++ [{| Entry_Level := ErrorLevel;
                    Entry_Message := "error : " ++ Error e |}])%list)
  /\ (forall e,
        json_Marshal (NewEmbeds c probers) = Err e ->
        World_log (snd (NotifyStat c probers w))
        = (World_log w
             ++ [{| Entry_Level := ErrorLevel;
                    Entry_Message := "error : " ++ Error e |}])%list).
Proof.
  intros Hdry. unfold Notify, NotifyStat, DryNotify, DryNotifyStat. rewrite Hdry.
  unfold log_Infof, log_Errorf, write_log.
  repeat split.
  - destruct (json_Marshal (NewDiscord c result)); reflexivity.
  - destruct (json_Marshal (NewEmbeds c probers)); reflexivity.
  - destruct (json_Marshal (NewDiscord c result)); eexists; reflexivity.
  - destruct (json_Marshal (NewEmbeds c probers)); eexists; reflexivity.
  - intros e ->. cbn [snd World_log]. now rewrite Sprintf_error_v.
  - intros e ->. cbn [snd World_log]. now rewrite Sprintf_error_v.
Qed.

(** X9. [Config] never fails and never touches the network; it writes one
    info entry, "Notification discord is running on Dry mode!", when the
    configuration is dry and nothing otherwise. *)
Theorem Config_logs_only_when_dry (c : NotifyConfig) (w : World) :
  Config c w
  = (None,
     if Dry c then
       {| World_log :=
            World_log w
              ++ [{| Entry_Level := InfoLevel;
                     Entry_Message := "Notification discord is running on Dry mode!" |}];
          World_http := World_http w |}
     else w).
Proof.
  unfold Config. destruct (Dry c); [|reflexivity].
  unfold bind, log_Infof, write_log, ret. now rewrite Sprintf_dry_mode.
Qed.

End Calls.

Section Frames.

Context {P : probe.API} {G : Platform}.

(** What a delivery leaves behind, whatever its outcome: the log as it
    was, and the network history with at most one request more, which is
    the POST of the payload's JSON text to the configured URL. *)
Lemma SendDiscordNotification_effects (c : NotifyConfig) (d : Discord) (w : World) :
  exists reqs,
    snd (SendDiscordNotification c d w)
    = {| World_log := World_log w; World_http := World_http w ++ reqs |}
    /\ (List.length reqs <= 1)%nat
    /\ Forall (sent_by c d) reqs.
Proof.
  destruct (json_Marshal d) as [body|e] eqn:Hm.
  - destruct (url_Parse (WebhookURL c)) as [u|e] eqn:Hu.
    + exists [(webhook_client, webhook_request u body)].
      rewrite (SendDiscordNotification_built c d w body u Hm Hu).
      split; [reflexivity|]. split; [cbn; lia|].
      constructor; [|constructor]. exists u, body. repeat split; assumption.
    + exists []. unfold SendDiscordNotification, http_NewRequest. rewrite Hm, Hu.
      destruct w; cbn. rewrite app_nil_r. repeat split; [lia | constructor].
  - exists []. unfold SendDiscordNotification. rewrite Hm.
    destruct w; cbn. rewrite app_nil_r. repeat split; [lia | constructor].
Qed.

(** X10. Whatever the runtime does, a call of [Notify] or [NotifyStat]
    keeps the log and the network history it found and adds to them one or
    two log entries and at most one request; a request it adds is the POST
    of the payload's JSON text to the configured URL, with the JSON content
    type, a closing connection and the 10-second client. *)
Theorem Notify_effects_bounded
  (c : NotifyConfig) (result : probe.Result) (probers : list probe.Prober) (w : World) :
  (exists entries reqs,
     snd (Notify c result w)
     = {| World_log := World_log w ++ entries; World_http := World_http w ++ reqs |}
     /\ (1 <= List.length entries <= 2)%nat
     /\ (List.length reqs <= 1)%nat
     /\ Forall (sent_by c (NewDiscord c result)) reqs)
  /\ (exists entries reqs,
        snd (NotifyStat c probers w)
        = {| World_log := World_log w ++ entries; World_http := World_http w ++ reqs |}
        /\ (1 <= List.length entries <= 2)%nat
        /\ (List.length reqs <= 1)%nat
        /\ Forall (sent_by c (NewEmbeds c probers)) reqs).
Proof.
  split.
  - unfold Notify. destruct (Dry c).
    + unfold DryNotify, log_Infof, log_Errorf, write_log.
      destruct (json_Marshal (NewDiscord c result));
        (eexists; exists []; cbn [snd]; rewrite (app_nil_r (World_http w));
         split; [reflexivity|]; split; [cbn; lia|]; split; [cbn; lia | constructor]).
    + destruct (SendDiscordNotification_effects c (NewDiscord c result) w)
        as (reqs & Hw & Hlen & Hshape).
      unfold bind at 1.
      destruct (SendDiscordNotification c (NewDiscord c result) w) as [err w1].
      cbn [snd] in Hw. subst w1.
      destruct err as [e|].
      * unfold bind, log_Errorf, write_log.
        destruct (json_Marshal (NewDiscord c result));
          cbn -[Sprintf NewDiscord append];
          (eexists; exists reqs; rewrite <- app_assoc;
           split; [reflexivity|]; split; [cbn; lia|]; split; assumption).
      * unfold log_Infof, write_log. cbn -[Sprintf NewDiscord append].
        eexists; exists reqs.
        split; [reflexivity|]. split; [cbn; lia|]. split; assumption.
  - unfold NotifyStat. destruct (Dry c).
    + unfold DryNotifyStat, log_Infof, log_Errorf, write_log.
      destruct (json_Marshal (NewEmbeds c probers));
        (eexists; exists []; cbn [snd]; rewrite (app_nil_r (World_http w));
         split; [reflexivity|]; split; [cbn; lia|]; split; [cbn; lia | constructor]).
    + destruct (SendDiscordNotification_effects c (NewEmbeds c probers) w)
        as (reqs & Hw & Hlen & Hshape).
      unfold bind at 1.
      destruct (SendDiscordNotification c (NewEmbeds c probers) w) as [err w1].
      cbn [snd] in Hw. subst w1.
      destruct err as [e|].
      * unfold bind, log_Errorf, write_log.
        destruct (json_Marshal (NewEmbeds c probers));
          cbn -[Sprintf NewEmbeds append];
          (eexists; exists reqs; rewrite <- app_assoc;
           split; [reflexivity|]; split; [cbn; lia|]; split; assumption).
      * unfold log_Infoln, write_log. cbn -[fmt.sprintlnn NewEmbeds append].
        eexists; exists reqs.
        split; [reflexivity|]. split; [cbn; lia|]. split; assumption.
Qed.

(** X12. The timestamp of a single result depends on the instant of the
    start time only, to the second: neither the location the start time is
    seen from nor its nanoseconds change the text. *)
Theorem timestamp_ignores_location (c : NotifyConfig) (r1 r2 : probe.Result) :
  time.unixSec (probe.Result_StartTime r1) = time.unixSec (probe.Result_StartTime r2) ->
  map Embed_Timestamp (Embeds (NewDiscord c r1))
  = map Embed_Timestamp (Embeds (NewDiscord c r2)).
Proof.
  intros H. unfold NewDiscord. cbn [Embeds map app Embed_Timestamp].
  unfold Time_Format. change (String.eqb time.RFC3339 time.RFC3339) with true. cbv iota.
  unfold time.Time_Format_RFC3339, time.Time_abs, time.Time_UTC.
  cbn [time.unixSec time.loc time.nsec]. rewrite H. reflexivity.
Qed.

(** X13. For a start time in the years 0 to 9999 the timestamp of a
    single result has the 20 bytes of yyyy-mm-ddThh:mm:ssZ: separators at
    their places, the UTC marker Z at the end, whatever the location of the
    start time. *)
Theorem timestamp_shape (c : NotifyConfig) (result : probe.Result) :
  -62167219200 <= time.unixSec (probe.Result_StartTime result) < 253402300800 ->
  Forall
    (fun ts =>
       String.length ts = 20%nat
       /\ map (fun i => get i ts) [4; 7; 10; 13; 16; 19]%nat
          = map Some ["-"; "-"; "T"; ":"; ":"; "Z"]%char)
    (map Embed_Timestamp (Embeds (NewDiscord c result))).
Proof.
  intros H. unfold NewDiscord. cbn [Embeds map app Embed_Timestamp].
  unfold Time_Format. change (String.eqb time.RFC3339 time.RFC3339) with true. cbv iota.
  constructor; [|constructor].
  unfold time.Time_UTC, time.Time_Format_RFC3339.
  rewrite Time_abs_UTC by assumption.
  cbn [time.unixSec time.loc time.Location_lookup time.UTC].
  change (0 =? 0) with true. cbv iota.
  set (A := time.unixSec (probe.Result_StartTime result) + 9223372028715321600).
  destruct (absDate_spec A) as (year & month & day & yday & -> & Hy & Hmo & Hd & _);
    [unfold dayLo, dayHi; subst A; lia|].
  destruct (absClock_spec A) as (hour & min & sec & -> & Hh & Hmi & Hs & _);
    [subst A; lia|].
  pose proof (daysIn_le_31 month year Hmo) as H31.
  rewrite appendInt_4 by assumption.
  rewrite !appendInt_2 by lia.
  split; reflexivity.
Qed.

(** X14. A round trip of less than half a millisecond, in either sign, is
    shown as 0s in the description of a single result. *)
Theorem sub_half_millisecond_renders_0s (c : NotifyConfig) (result : probe.Result) :
  2 * Z.abs (probe.Result_RoundTripTime result) < time.Millisecond ->
  map Embed_Description (Embeds (NewDiscord c result))
  = [probe.Status_Emoji (probe.Result_Status result) ++ " "
       ++ probe.Result_Endpoint result ++ " - ⏱ 0s" ++ nl
       ++ "```" ++ probe.Result_Message result ++ "```"].
Proof.
  intros H.
  change time.Millisecond with 1000000 in H.
  destruct (Duration_Round_nearest (probe.Result_RoundTripTime result) time.Millisecond)
    as (k & Hk & Hnear & _);
    [reflexivity
    | change time.Millisecond with 1000000; change maxInt64 with 9223372036854775807; lia |].
  assert (k = 0) as -> by (change time.Millisecond with 1000000 in Hnear; lia).
  unfold NewDiscord. cbn [Embeds map app Embed_Description].
  rewrite Sprintf_description, Hk. reflexivity.
Qed.

End Frames.

(** X11. The JSON object of a payload has the members username,
    avatar_url, content and embeds, in this order; the array under embeds
    has one object per embed, each with the members author, title, url,
    color, description, timestamp, thumbnail, fields and footer; a field
    has name, value and inline, a thumbnail url. *)
Theorem payload_wire_schema (d : Discord) :
  Discord_json d
  = json.VObject
      [("username", json.VString (Username d));
       ("avatar_url", json.VString (AvatarURL d));
       ("content", json.VString (Content d));
       ("embeds", json.VArray (map Embed_json (Embeds d)))]
  /\ (forall e,
        json.keys (Embed_json e)
        = ["author"; "title"; "url"; "color"; "description"; "timestamp"; "thumbnail";
           "fields"; "footer"])
  /\ (forall f, json.keys (Fields_json f) = ["name"; "value"; "inline"])
  /\ (forall t, json.keys (Thumbnail_json t) = ["url"]).
Proof. repeat split. Qed.

(** ** The same at concrete inputs *)

(** X3 on a network that answers 500: one request went out. *)
Lemma Notify_failed_delivery_logs_posted_body_witness :
  List.length
    (World_http
       (snd (Notify (P := demo_API) (G := demo_Platform answer_500) demo_config demo_result
               World_empty)))
  = 1%nat.
Proof.
  destruct (Notify_failed_delivery_logs_posted_body
              (P := demo_API) (G := demo_Platform answer_500) demo_config demo_result
              World_empty _ _ eq_refl eq_refl eq_refl) as (H & _).
  rewrite (H _ eq_refl); [reflexivity | discriminate].
Defined.

(** X4 on a network that answers 204. *)
Lemma Notify_confirms_iff_204_witness :
  World_log
    (snd (Notify (P := demo_API) (G := demo_Platform answer_204) demo_config demo_result
            World_empty))
  = [{| Entry_Level := InfoLevel;
        Entry_Message := "Sent the Discord notification for web (https://example.com)!" |}].
Proof.
  apply (proj2 (Notify_confirms_iff_204
                  (P := demo_API) (G := demo_Platform answer_204) demo_config demo_result
                  World_empty _ _ eq_refl eq_refl eq_refl)).
  eexists. split; reflexivity.
Defined.

(** X5 for [demo_result] under the dry and the live sample configuration. *)
Lemma dry_run_previews_posted_body_witness :
  exists json,
    map Entry_Message
      (World_log
         (snd (Notify (P := demo_API) (G := demo_Platform answer_204) demo_dry_config
                 demo_result World_empty)))
    = ["[discord] Dry notify - " ++ json]
    /\ map (fun cr => http.Request_Body (snd cr))
         (World_http
            (snd (Notify (P := demo_API) (G := demo_Platform answer_204) demo_config
                    demo_result World_empty)))
       = [json].
Proof.
  eexists.
  destruct (dry_run_previews_posted_body
              (P := demo_API) (G := demo_Platform answer_204) demo_dry_config demo_config
              demo_result World_empty _ _ eq_refl eq_refl eq_refl eq_refl) as (H1 & H2 & _).
  rewrite H1, H2. split; reflexivity.
Defined.

(** X6 on a runtime that parses no URL. *)
Lemma Notify_unparsable_URL_witness :
  World_http
    (snd (Notify (P := demo_API) (G := badurl_Platform) demo_config demo_result World_empty))
  = []
  /\ map Entry_Level
       (World_log
          (snd (Notify (P := demo_API) (G := badurl_Platform) demo_config demo_result
                  World_empty)))
     = [ErrorLevel; ErrorLevel].
Proof.
  rewrite (Notify_unparsable_URL (P := demo_API) (G := badurl_Platform) demo_config
             demo_result World_empty _ _ eq_refl eq_refl eq_refl).
  split; reflexivity.
Defined.

(** X7 on a network that answers 204. *)
Lemma NotifyStat_success_witness :
  map Entry_Message
    (World_log
       (snd (NotifyStat (P := demo_API) (G := demo_Platform answer_204) demo_config
               [demo_prober] World_empty)))
  = ["Sent the Statstics to Slack Successfully!"].
Proof.
  rewrite (NotifyStat_success (P := demo_API) (G := demo_Platform answer_204) demo_config
             [demo_prober] World_empty _ eq_refl eq_refl).
  reflexivity.
Defined.

(** X8 with an encoder that refuses the payload. *)
Lemma dry_run_never_sends_witness :
  World_log
    (snd (Notify (P := demo_API) (G := refusing_Platform answer_204) demo_dry_config
            demo_result World_empty))
  = [{| Entry_Level := ErrorLevel; Entry_Message := "error : json: unsupported value" |}].
Proof.
  destruct (dry_run_never_sends
              (P := demo_API) (G := refusing_Platform answer_204) demo_dry_config demo_result
              [demo_prober] World_empty eq_refl) as (_ & _ & _ & H & _).
  rewrite (H _ eq_refl). reflexivity.
Defined.

(** X12 for one instant seen from UTC and from a zone east of it. *)
Lemma timestamp_ignores_location_witness :
  map Embed_Timestamp
    (Embeds (NewDiscord (P := demo_API) (G := demo_Platform answer_204) demo_config demo_result))
  = map Embed_Timestamp
      (Embeds (NewDiscord (P := demo_API) (G := demo_Platform answer_204) demo_config
                 east_result)).
Proof.
  exact (timestamp_ignores_location
           (P := demo_API) (G := demo_Platform answer_204) demo_config demo_result east_result
           eq_refl).
Defined.

(** X13 for a start time seen from a zone east of UTC. *)
Lemma timestamp_shape_witness :
  Forall
    (fun ts =>
       String.length ts = 20%nat
       /\ map (fun i => get i ts) [4; 7; 10; 13; 16; 19]%nat
          = map Some ["-"; "-"; "T"; ":"; ":"; "Z"]%char)
    (map Embed_Timestamp
       (Embeds (NewDiscord (P := demo_API) (G := demo_Platform answer_204) demo_config
                  east_result))).
Proof.
  apply (timestamp_shape (P := demo_API) (G := demo_Platform answer_204) demo_config east_result).
  cbn. lia.
Defined.

(** X14 for a round trip of 0.4 ms. *)
Lemma sub_half_millisecond_renders_0s_witness :
  map Embed_Description
    (Embeds (NewDiscord (P := demo_API) (G := demo_Platform answer_204) demo_config east_result))
  = ["❌ https://example.com - ⏱ 0s" ++ nl ++ "```refused```"].
Proof.
  apply (sub_half_millisecond_renders_0s
           (P := demo_API) (G := demo_Platform answer_204) demo_config east_result).
  reflexivity.
Defined.

(** C2, counterexample. With the webhook ://bad, which [http.NewRequest]
    refuses, [SendDiscordNotification] issues no request at all, on a
    network that would answer 204 and for a payload that serializes: it
    returns the parser's error and leaves the world as it was. *)
Lemma SendDiscordNotification_no_post_counterexample :
  World_http
    (snd (SendDiscordNotification (G := strict_Platform answer_204) bad_config
            (NewDiscord (P := demo_API) (G := strict_Platform answer_204) bad_config
               demo_result)
            World_empty))
  = []
  /\ fst (SendDiscordNotification (G := strict_Platform answer_204) bad_config
            (NewDiscord (P := demo_API) (G := strict_Platform answer_204) bad_config
               demo_result)
            World_empty)
     = Some (errors_New ("parse " ++ dquote ++ "://bad" ++ dquote
                           ++ ": missing protocol scheme"))
  /\ (exists body,
        json_Marshal (Platform := strict_Platform answer_204)
          (NewDiscord (P := demo_API) (G := strict_Platform answer_204) bad_config
             demo_result)
        = Ok body)
  /\ (exists u,
        url_Parse (Platform := strict_Platform answer_204)
          "https://discord.com/api/webhooks/1/t"
        = Ok u).
Proof.
  split; [vm_compute; reflexivity|].
  split; [vm_compute; reflexivity|].
  split; eexists; reflexivity.
Qed.
